(** * Relic Rush relay server (server/app.py)

    A shallow embedding of the Flask / Flask-SocketIO relay: the two
    module-level tables [sessions] and [socket_map], the HTTP route
    [create_session] and the seven Socket.IO handlers.

    Handlers are written in a small state-and-exception monad.  The
    transport (Flask-SocketIO over python-socketio) is an external
    collaborator: a call of [join_room] or [emit] either raises, when the
    library cannot use the room it is given, or is recorded, in program
    order, with the arguments the handler passes.  What the library does
    with a recorded call is described only as far as the [include_self]
    option goes (see [recipients]).  A Python exception leaves the tables
    as they were when it was raised, and reaches the caller of the
    handler. *)

From Stdlib Require Import ZArith String List Floats.
From stdpp Require Import gmap strings list fin_maps.

Local Open Scope string_scope.
Local Open Scope Z_scope.

(** ** Values carried by event payloads

    The payload of a Socket.IO event is a decoded JSON object: a Python
    [dict] from [str] keys to JSON values. *)

#[warnings="-register-all"]
Inductive value : Type :=
| VNone
| VBool (b : bool)
| VInt (z : Z)
| VFloat (f : float)
| VStr (s : string)
| VList (items : list value)
| VDict (fields : list (string * value)).

Abbreviation payload := (gmap string value).

(** [v == 'lit'] for a [str] literal: only a [str] equals a [str]. *)
Definition eq_str (v : value) (lit : string) : bool :=
  match v with
  | VStr s => String.eqb s lit
  | _ => false
  end.

(** [hash(v)] succeeds: a JSON array or object, a Python [list] or
    [dict], cannot be a [dict] key; every other JSON value can. *)
Definition hashable (v : value) : bool :=
  match v with
  | VList _ | VDict _ => false
  | _ => true
  end.

(** [data.get(k)], [data.get(k, d)]. *)
Definition dict_get (data : payload) (k : string) : value :=
  default VNone (data !! k).

Definition dict_get_default (data : payload) (k : string) (d : value) : value :=
  default d (data !! k).

(** ** The two tables *)

(** A connection identifier, [request.sid]. *)
Abbreviation sid := string.

(** [{'players': [], 'status': 'waiting'}] *)
Record session : Type := Session {
  players : list value;
  status : string
}.

(** [{'sessionId': session_id, 'role': role}] *)
Record binding : Type := Binding {
  b_sessionId : value;
  b_role : value
}.

Record state : Type := State {
  sessions : gmap string session;
  socket_map : gmap sid binding
}.

(** [sessions = {}], [socket_map = {}] at import time. *)
Definition init : state := State ∅ ∅.

(** ** Transport calls and exceptions *)

Inductive call : Type :=
| JoinRoom (sender : sid) (room : value)
| Emit (sender : sid) (event : string) (body : payload)
       (room : value) (include_self : bool).

(** [KeyError('k')] of a missing [str] key, [KeyError(0)] of a [dict]
    indexed at 0, [TypeError] of an unhashable [dict] key, and [OSError]
    of a failed socket call. *)
Inductive exn : Type :=
| KeyError (key : string)
| KeyErrorInt (key : Z)
| TypeError
| OSError.

Inductive result (A : Type) : Type :=
| Ok (a : A)
| Raise (e : exn).
Arguments Ok {A} a.
Arguments Raise {A} e.

Record outcome (A : Type) : Type := Outcome {
  res : result A;
  post : state;
  log : list call
}.
Arguments Outcome {A} res post log.
Arguments res {A} o.
Arguments post {A} o.
Arguments log {A} o.

Definition M (A : Type) : Type := state -> outcome A.

Definition ret {A} (a : A) : M A := fun st => Outcome (Ok a) st [].

Definition raise {A} (e : exn) : M A := fun st => Outcome (Raise e) st [].

Definition bind {A B} (m : M A) (k : A -> M B) : M B := fun st =>
  let o := m st in
  match res o with
  | Ok a =>
      let o' := k a (post o) in
      Outcome (res o') (post o') (log o ++ log o')
  | Raise e => Outcome (Raise e) (post o) (log o)
  end.

Notation "'let!' x ':=' m 'in' k" := (bind m (fun x => k))
  (at level 10, x name, m at level 100, k at level 200).
Notation "'do!' m 'in' k" := (bind m (fun _ => k))
  (at level 10, m at level 100, k at level 200).

(** [data[k]]: raises [KeyError] when the key is absent. *)
Definition dict_item (data : payload) (k : string) : M value :=
  match data !! k with
  | Some v => ret v
  | None => raise (KeyError k)
  end.

Definition tell (c : call) : M unit := fun st => Outcome (Ok tt) st [c].

(** [join_room(room)] for the connection [me] being served.  The library
    uses [room] as a key of its [dict] of rooms, which raises [TypeError]
    for an unhashable room. *)
Definition join_room (me : sid) (room : value) : M unit :=
  if hashable room then tell (JoinRoom me room) else raise TypeError.

(** What the library raises when it looks up the participants of [room].
    A falsy room ([None], an empty array or object, ...) is not looked up.
    A sized room that is not a [str] is read as a sequence of rooms:
    [room[0]] is [KeyError(0)] on an object with fields, and each element
    of an array is used as a key of the [dict] of rooms. *)
Definition emit_error (room : value) : option exn :=
  match room with
  | VDict (_ :: _) => Some (KeyErrorInt 0)
  | VList items => if forallb hashable items then None else Some TypeError
  | _ => None
  end.

(** [emit(event, body, room=room, include_self=include_self)];
    [include_self] is [True] when the call does not pass it.  The lookup
    of the participants comes before anything is sent. *)
Definition emit (me : sid) (event : string) (body : payload)
    (room : value) (include_self : bool) : M unit :=
  match emit_error room with
  | Some e => raise e
  | None => tell (Emit me event body room include_self)
  end.

(** [sessions[k] = s] *)
Definition sessions_set (k : string) (s : session) : M unit := fun st =>
  Outcome (Ok tt) (State (<[k := s]> (sessions st)) (socket_map st)) [].

(** [socket_map[me] = b] *)
Definition socket_map_set (me : sid) (b : binding) : M unit := fun st =>
  Outcome (Ok tt) (State (sessions st) (<[me := b]> (socket_map st))) [].

(** [socket_map.pop(me, None)] *)
Definition socket_map_pop (me : sid) : M (option binding) := fun st =>
  Outcome (Ok (socket_map st !! me))
          (State (sessions st) (delete me (socket_map st))) [].

(** ** Session creation (POST /api/session)

    The operating-system interactions of the route are inputs of the
    model: the text of the UUID that [uuid.uuid4()] draws, and what each
    of the four socket calls of [get_local_ip] does.  A call that fails
    raises [OSError]; only the two calls inside the [try] block are
    covered by its [except Exception]. *)

Inductive os_result (A : Type) : Type :=
| Returns (a : A)
| Fails.
Arguments Returns {A} a.
Arguments Fails {A}.

Record net_env : Type := NetEnv {
  (** [socket.socket(socket.AF_INET, socket.SOCK_DGRAM)], before the [try] *)
  socket_socket : os_result unit;
  (** [s.connect(('8.8.8.8', 80))] *)
  connect : os_result unit;
  (** [s.getsockname()[0]] *)
  getsockname_host : os_result string;
  (** [s.close()], in the [finally] *)
  close : os_result unit
}.

(** The value of [ip] when the [try] statement is left. *)
Definition ip_after_try (net : net_env) : string :=
  match connect net with
  | Returns _ =>
      match getsockname_host net with
      | Returns ip => ip
      | Fails => "127.0.0.1"
      end
  | Fails => "127.0.0.1"
  end.

Definition get_local_ip (net : net_env) : M string :=
  match socket_socket net with
  | Fails => raise OSError
  | Returns _ =>
      let ip := ip_after_try net in
      match close net with
      | Fails => raise OSError
      | Returns _ => ret ip
      end
  end.

(** The JSON body of the HTTP response. *)
Record response : Type := Response {
  r_sessionId : string;
  r_ip : string;
  r_port : Z
}.

(** [str(u)[:8]] *)
Definition short_id (uuid4 : string) : string := String.substring 0 8 uuid4.

Definition create_session (uuid4 : string) (net : net_env) : M response :=
  let session_id := short_id uuid4 in
  let! ip := get_local_ip net in
  do! sessions_set session_id (Session [] "waiting") in
  ret (Response session_id ip 5173).

(** ** The Socket.IO handlers

    [me] is [request.sid], the connection whose event is being served. *)

Definition handle_join (me : sid) (data : payload) : M unit :=
  let session_id := dict_get data "sessionId" in
  let role := dict_get data "role" in
  do! join_room me session_id in
  do! socket_map_set me (Binding session_id role) in
  if eq_str role "controller" then
    let name := dict_get_default data "name" (VStr "Player") in
    emit me "player_joined" {[ "name" := name ]} session_id true
  else if eq_str role "desktop" then
    emit me "desktop_ready" {[ "sessionId" := session_id ]} session_id true
  else ret tt.

Definition handle_control (me : sid) (data : payload) : M unit :=
  let session_id := dict_get data "sessionId" in
  let! direction := dict_item data "direction" in
  emit me "control" {[ "direction" := direction ]} session_id false.

Definition handle_start (me : sid) (data : payload) : M unit :=
  let session_id := dict_get data "sessionId" in
  emit me "game_started" ∅ session_id true.

Definition handle_end (me : sid) (data : payload) : M unit :=
  let session_id := dict_get data "sessionId" in
  let score := dict_get_default data "score" (VInt 0) in
  let coins := dict_get_default data "coins" (VInt 0) in
  emit me "game_ended" (<[ "score" := score ]> {[ "coins" := coins ]})
       session_id true.

Definition handle_score (me : sid) (data : payload) : M unit :=
  let session_id := dict_get data "sessionId" in
  emit me "score_update"
       (<[ "score" := dict_get_default data "score" (VInt 0) ]>
          {[ "coins" := dict_get_default data "coins" (VInt 0) ]})
       session_id false.

Definition handle_restart (me : sid) (data : payload) : M unit :=
  let session_id := dict_get data "sessionId" in
  emit me "restart_game" ∅ session_id false.

(** [info] is a two-key [dict] when it is not [None], hence truthy. *)
Definition handle_disconnect (me : sid) : M unit :=
  let! info := socket_map_pop me in
  match info with
  | Some info =>
      if eq_str (b_role info) "controller" then
        let session_id := b_sessionId info in
        emit me "controller_disconnected" ∅ session_id true
      else ret tt
  | None => ret tt
  end.

(** ** Requests and runs

    One handler invocation per inbound request.  The tables are touched
    by single [dict] operations, so a run of the server is a sequence of
    handler invocations. *)

Inductive request : Type :=
| CreateSession (uuid4 : string) (net : net_env)
| JoinSession (me : sid) (data : payload)
| Control (me : sid) (data : payload)
| StartGame (me : sid) (data : payload)
| EndGame (me : sid) (data : payload)
| ScoreUpdate (me : sid) (data : payload)
| RestartGame (me : sid) (data : payload)
| Disconnect (me : sid).

Definition is_relay (r : request) : bool :=
  match r with
  | CreateSession _ _ => false
  | _ => true
  end.

Definition step (r : request) : M (option response) :=
  match r with
  | CreateSession u net => let! resp := create_session u net in ret (Some resp)
  | JoinSession me data => do! handle_join me data in ret None
  | Control me data => do! handle_control me data in ret None
  | StartGame me data => do! handle_start me data in ret None
  | EndGame me data => do! handle_end me data in ret None
  | ScoreUpdate me data => do! handle_score me data in ret None
  | RestartGame me data => do! handle_restart me data in ret None
  | Disconnect me => do! handle_disconnect me in ret None
  end.

(** The tables after serving the requests of [rs] in order, from [st]. *)
Fixpoint run (rs : list request) (st : state) : state :=
  match rs with
  | [] => st
  | r :: rs' => run rs' (post (step r st))
  end.

Definition reachable (st : state) : Prop := exists rs, st = run rs init.

(** ** Delivery of a broadcast

    [emit(..., room=r, include_self=b)] hands the event to the members of
    the target room; with [include_self=False] the transport skips the
    connection that is being served.  [members] is the transport's member
    list of the room the call targets. *)

Definition recipients (members : list sid) (c : call) : list sid :=
  match c with
  | Emit sender _ _ _ include_self =>
      if include_self then members
      else filter (fun m => m <> sender) members
  | JoinRoom _ _ => []
  end.

Definition is_emit (c : call) : bool :=
  match c with
  | Emit _ _ _ _ _ => true
  | JoinRoom _ _ => false
  end.

(** The broadcasts among the calls [cs]. *)
Definition emits (cs : list call) : list call := List.filter is_emit cs.

(** A broadcast that the transport hands to every member of the target
    room except the connection being served. *)
Definition all_but_sender (me : sid) (c : call) : Prop :=
  forall members m, m ∈ recipients members c <-> m ∈ members /\ m <> me.

(** A broadcast that the transport hands to every member of the target
    room, the connection being served among them when it is a member. *)
Definition whole_room (c : call) : Prop :=
  forall members, recipients members c = members.

(** ** Runs as seen from outside *)

(** Every call made to the transport while serving [rs] from [st], in
    program order. *)
Fixpoint transcript (rs : list request) (st : state) : list call :=
  match rs with
  | [] => []
  | r :: rs' => log (step r st) ++ transcript rs' (post (step r st))
  end.

(** The connection that a request is served for ([request.sid]); the HTTP
    route is served for none. *)
Definition connection_of (r : request) : option sid :=
  match r with
  | CreateSession _ _ => None
  | JoinSession me _ | Control me _ | StartGame me _ | EndGame me _
  | ScoreUpdate me _ | RestartGame me _ | Disconnect me => Some me
  end.

(** [r] is a disconnect. *)
Definition is_disconnect (r : request) : bool :=
  match r with
  | Disconnect _ => true
  | _ => false
  end.

(** The event names that appear as first argument of an [emit] in the
    source. *)
Definition server_events : list string :=
  [ "player_joined"; "desktop_ready"; "control"; "game_started";
    "game_ended"; "score_update"; "restart_game"; "controller_disconnected" ].

(** The keys of the [dict] literal that the source passes to [emit] with
    each event name. *)
Definition event_fields (ev : string) : list string :=
  if String.eqb ev "player_joined" then ["name"]
  else if String.eqb ev "desktop_ready" then ["sessionId"]
  else if String.eqb ev "control" then ["direction"]
  else if String.eqb ev "game_ended" then ["score"; "coins"]
  else if String.eqb ev "score_update" then ["score"; "coins"]
  else [].

(** The socket of [get_local_ip] is allocated and closed without error. *)
Definition socket_works (net : net_env) : bool :=
  match socket_socket net, close net with
  | Returns _, Returns _ => true
  | _, _ => false
  end.


(** The identifiers that the creations of [rs] return, in order: a
    creation whose socket fails returns none. *)
Fixpoint created_ids (rs : list request) : list string :=
  match rs with
  | [] => []
  | CreateSession uuid4 net :: rs' =>
      if socket_works net then short_id uuid4 :: created_ids rs'
      else created_ids rs'
  | _ :: rs' => created_ids rs'
  end.

(** The binding that [handle_join] writes for the payload [data]. *)
Definition binding_of (data : payload) : binding :=
  Binding (dict_get data "sessionId") (dict_get data "role").

(** The transport lets a join with payload [data] into its room. *)
Definition admitted (data : payload) : bool :=
  hashable (dict_get data "sessionId").

(** [r] assigns to or pops [socket_map[c]]: an admitted join or a
    disconnect of connection [c]. *)
Definition rebinds (c : sid) (r : request) : bool :=
  match r with
  | JoinSession me data => bool_decide (me = c) && admitted data
  | Disconnect me => bool_decide (me = c)
  | _ => false
  end.

(** The last request of [rs] that is an admitted join or a disconnect of
    [c] is a join, and [data] is its payload. *)
Definition last_join (c : sid) (rs : list request) (data : payload) : Prop :=
  exists before after,
    rs = (before ++ JoinSession c data :: after)%list
    /\ admitted data = true
    /\ Forall (fun r => rebinds c r = false) after.

(** [c] has sent a [join_session] that was admitted and no [disconnect]
    after it. *)
Definition joined_and_connected (c : sid) (rs : list request) : Prop :=
  exists before data after,
    rs = (before ++ JoinSession c data :: after)%list
    /\ admitted data = true
    /\ Disconnect c ∉ after.

(** What [handle_disconnect] broadcasts for a connection bound to [b]. *)
Definition farewell (c : sid) (b : binding) : list call :=
  if eq_str (b_role b) "controller"
  then [Emit c "controller_disconnected" ∅ (b_sessionId b) true]
  else [].

(** The [score] and [coins] fields of the broadcast that [o] made. *)
Definition broadcast_field (o : outcome unit) (k : string) : option value :=
  match log o with
  | [Emit _ _ body _ _] => body !! k
  | _ => None
  end.

(** The result of a handler that ends with an [emit] to [room]. *)
Definition emit_result (room : value) : result (option response) :=
  match emit_error room with
  | Some e => Raise e
  | None => Ok None
  end.

(** ** Invariants of the tables *)

(** Every record of the session table is the one written at creation. *)
Definition all_waiting (st : state) : Prop :=
  forall k s, sessions st !! k = Some s -> s = Session [] "waiting".

(** Every binding names a room that [join_room] took. *)
Definition bindings_ok (st : state) : Prop :=
  forall c b, socket_map st !! c = Some b -> hashable (b_sessionId b) = true.


(** ** Statements that are compared with the code *)

(** A [control] event without [direction] is dropped quietly: the handler
    returns normally and broadcasts nothing. *)
Definition control_dropped_quietly (me : sid) (data : payload) (st : state) : Prop :=
  data !! "direction" = None ->
  exists u, res (handle_control me data st) = Ok u
            /\ emits (log (handle_control me data st)) = [].

(** The identifier that a creation returns is not the key of a session
    that is already in the table. *)
Definition creation_returns_fresh_id (uuid4 : string) (net : net_env) (st : state) : Prop :=
  forall resp, res (create_session uuid4 net st) = Ok resp ->
               sessions st !! r_sessionId resp = None.

(** A join with a role that is neither 'controller' nor 'desktop' is
    accepted without error, its binding recorded, nothing broadcast. *)
Definition other_role_join_accepted (me : sid) (data : payload) (st : state) : Prop :=
  dict_get data "role" <> VStr "controller" ->
  dict_get data "role" <> VStr "desktop" ->
  res (handle_join me data st) = Ok tt
  /\ socket_map (post (handle_join me data st)) !! me = Some (binding_of data)
  /\ emits (log (handle_join me data st)) = [].


(** A join by a connection that is already bound overwrites its binding
    without error. *)
Definition second_join_overwrites (me : sid) (data : payload) (st : state) : Prop :=
  is_Some (socket_map st !! me) ->
  res (handle_join me data st) = Ok tt
  /\ socket_map (post (handle_join me data st)) !! me = Some (binding_of data).

(** ** Inputs used by the examples *)

Definition only_session_id : payload := {[ "sessionId" := VStr "ab12cd34" ]}.

Definition control_left : payload :=
  <[ "direction" := VStr "left" ]> only_session_id.

Definition join_controller_ana : payload :=
  <[ "name" := VStr "Ana" ]>
    (<[ "role" := VStr "controller" ]> only_session_id).

Definition join_controller_anonymous : payload :=
  <[ "role" := VStr "controller" ]> only_session_id.

Definition join_desktop : payload :=
  <[ "role" := VStr "desktop" ]> only_session_id.

Definition join_spectator : payload :=
  <[ "role" := VStr "spectator" ]> only_session_id.

Definition rejoin_other : payload :=
  <[ "role" := VStr "desktop" ]> {[ "sessionId" := VStr "ffff0000" ]}.

Definition join_controller_other : payload :=
  <[ "role" := VStr "controller" ]> {[ "sessionId" := VStr "ffff0000" ]}.

(** Payloads whose [sessionId] is a JSON array, ['a'], and a JSON object,
    {'a': 1}. *)
Definition join_array_spectator : payload :=
  <[ "role" := VStr "spectator" ]> {[ "sessionId" := VList [VStr "a"] ]}.

Definition join_array_desktop : payload :=
  <[ "role" := VStr "desktop" ]> {[ "sessionId" := VList [VStr "a"] ]}.


Definition no_network : net_env := NetEnv (Returns tt) Fails Fails (Returns tt).
Definition lan : net_env :=
  NetEnv (Returns tt) (Returns tt) (Returns "192.168.1.20") (Returns tt).
(** No socket can be allocated. *)
Definition no_descriptor : net_env := NetEnv Fails Fails Fails Fails.
Definition uuid_a : string := "ab12cd34-5e6f-4a7b-8c9d-0e1f2a3b4c5d".
Definition uuid_b : string := "ab12cd34-0000-4000-8000-000000000000".

(** A full game, served from the empty tables. *)
Definition game : list request :=
  [ CreateSession uuid_a lan;
    JoinSession "d1" join_desktop;
    JoinSession "c1" join_controller_ana;
    StartGame "d1" only_session_id;
    Control "c1" control_left;
    ScoreUpdate "d1" only_session_id;
    EndGame "d1" only_session_id;
    RestartGame "c1" only_session_id;
    Disconnect "c1" ].

(** The tables after a creation, a desktop "d1" and a controller "c1"
    have joined session "ab12cd34". *)
Definition paired : state :=
  run [ CreateSession uuid_a lan;
        JoinSession "d1" join_desktop;
        JoinSession "c1" join_controller_ana ] init.

(** Two joins by one connection, for different sessions. *)
Definition hops : list request :=
  [ JoinSession "c1" join_controller_ana;
    Control "c1" only_session_id;
    JoinSession "c1" join_controller_other;
    JoinSession "d1" join_desktop ].

(** A second join that the transport refuses. *)
Definition refused_hop : list request :=
  [ JoinSession "c1" join_controller_ana;
    JoinSession "c1" join_array_desktop ].

(** * Equations of the transport calls and of the handlers *)

Lemma hashable_emit_error (room : value) :
  hashable room = true -> emit_error room = None.
Proof. destruct room; try reflexivity; discriminate. Qed.

Lemma emit_eq (me : sid) (ev : string) (body : payload) (room : value)
    (incl : bool) (st : state) :
  emit me ev body room incl st =
  match emit_error room with
  | Some e => Outcome (Raise e) st []
  | None => Outcome (Ok tt) st [Emit me ev body room incl]
  end.
Proof. unfold emit. destruct (emit_error room); reflexivity. Qed.

Lemma emit_plain (me : sid) (ev : string) (body : payload) (room : value)
    (incl : bool) (st : state) :
  hashable room = true ->
  emit me ev body room incl st = Outcome (Ok tt) st [Emit me ev body room incl].
Proof. intros H. rewrite emit_eq, (hashable_emit_error _ H). reflexivity. Qed.

Lemma post_emit (me : sid) (ev : string) (body : payload) (room : value)
    (incl : bool) (st : state) :
  post (emit me ev body room incl st) = st.
Proof. rewrite emit_eq. destruct (emit_error room); reflexivity. Qed.

(** Whatever [emit] records is the call it was asked to make. *)
Lemma log_emit_elem (me : sid) (ev : string) (body : payload) (room : value)
    (incl : bool) (st : state) (c : call) :
  c ∈ log (emit me ev body room incl st) -> c = Emit me ev body room incl.
Proof.
  rewrite emit_eq. destruct (emit_error room); cbn [log]; intros Hin.
  - apply elem_of_nil in Hin. contradiction.
  - apply list_elem_of_singleton in Hin. exact Hin.
Qed.

Lemma log_emit_length (me : sid) (ev : string) (body : payload) (room : value)
    (incl : bool) (st : state) :
  (length (emits (log (emit me ev body room incl st))) <= 1)%nat.
Proof. rewrite emit_eq. destruct (emit_error room); cbn; lia. Qed.

Section Equations.
Variables (me : sid) (data : payload) (st : state).

Lemma handle_control_eq :
  handle_control me data st =
  match data !! "direction" with
  | Some d =>
      emit me "control" {[ "direction" := d ]} (dict_get data "sessionId") false st
  | None => Outcome (Raise (KeyError "direction")) st []
  end.
Proof.
  unfold handle_control, bind, dict_item.
  destruct (data !! "direction") as [d|]; [|reflexivity].
  cbn [ret res post log]. cbv zeta. rewrite app_nil_l.
  destruct (emit me "control" {[ "direction" := d ]} (dict_get data "sessionId") false st).
  reflexivity.
Qed.

Lemma handle_start_eq :
  handle_start me data st =
  emit me "game_started" ∅ (dict_get data "sessionId") true st.
Proof. reflexivity. Qed.

Lemma handle_restart_eq :
  handle_restart me data st =
  emit me "restart_game" ∅ (dict_get data "sessionId") false st.
Proof. reflexivity. Qed.

Lemma handle_end_eq :
  handle_end me data st =
  emit me "game_ended"
    (<[ "score" := dict_get_default data "score" (VInt 0) ]>
       {[ "coins" := dict_get_default data "coins" (VInt 0) ]})
    (dict_get data "sessionId") true st.
Proof. reflexivity. Qed.

Lemma handle_score_eq :
  handle_score me data st =
  emit me "score_update"
    (<[ "score" := dict_get_default data "score" (VInt 0) ]>
       {[ "coins" := dict_get_default data "coins" (VInt 0) ]})
    (dict_get data "sessionId") false st.
Proof. reflexivity. Qed.

Lemma handle_join_eq :
  handle_join me data st =
  let session_id := dict_get data "sessionId" in
  let role := dict_get data "role" in
  if hashable session_id then
    Outcome (Ok tt)
      (State (sessions st) (<[me := Binding session_id role]> (socket_map st)))
      (JoinRoom me session_id ::
       if eq_str role "controller" then
         [Emit me "player_joined"
            {[ "name" := dict_get_default data "name" (VStr "Player") ]}
            session_id true]
       else if eq_str role "desktop" then
         [Emit me "desktop_ready" {[ "sessionId" := session_id ]} session_id true]
       else [])
  else Outcome (Raise TypeError) st [].
Proof.
  cbv zeta. unfold handle_join, bind, join_room.
  destruct (hashable (dict_get data "sessionId")) eqn:Hh; [|reflexivity].
  unfold socket_map_set, tell, ret. cbn [res post log app].
  destruct (eq_str (dict_get data "role") "controller");
    [|destruct (eq_str (dict_get data "role") "desktop")];
    try rewrite (emit_plain _ _ _ _ _ _ Hh); reflexivity.
Qed.

Lemma handle_disconnect_eq :
  handle_disconnect me st =
  let st' := State (sessions st) (delete me (socket_map st)) in
  match socket_map st !! me with
  | Some info =>
      if eq_str (b_role info) "controller"
      then emit me "controller_disconnected" ∅ (b_sessionId info) true st'
      else Outcome (Ok tt) st' []
  | None => Outcome (Ok tt) st' []
  end.
Proof.
  cbv zeta. unfold handle_disconnect, bind, socket_map_pop, ret.
  cbn [res post log app].
  destruct (socket_map st !! me) as [info|]; [|reflexivity].
  destruct (eq_str (b_role info) "controller"); [|reflexivity].
  destruct (emit me "controller_disconnected" ∅ (b_sessionId info) true _).
  reflexivity.
Qed.

Lemma create_session_eq (uuid4 : string) (net : net_env) :
  create_session uuid4 net st =
  if socket_works net then
    Outcome (Ok (Response (short_id uuid4) (ip_after_try net) 5173))
      (State (<[short_id uuid4 := Session [] "waiting"]> (sessions st))
             (socket_map st))
      []
  else Outcome (Raise OSError) st [].
Proof.
  unfold create_session, bind, get_local_ip, socket_works, sessions_set, ret, raise.
  destruct (socket_socket net); [|reflexivity].
  destruct (close net); reflexivity.
Qed.
End Equations.

Lemma eq_str_true v lit : eq_str v lit = true <-> v = VStr lit.
Proof.
  destruct v; simpl; try (split; [discriminate | congruence]).
  rewrite String.eqb_eq. split; congruence.
Qed.

Lemma eq_str_false v lit : eq_str v lit = false <-> v <> VStr lit.
Proof.
  rewrite <- eq_str_true. destruct (eq_str v lit); split; congruence.
Qed.

Lemma emit_false_all_but_sender me ev body room :
  all_but_sender me (Emit me ev body room false).
Proof.
  intros members m. simpl. rewrite list_elem_of_filter. tauto.
Qed.

Lemma emit_true_whole_room me ev body room :
  whole_room (Emit me ev body room true).
Proof. intros members. reflexivity. Qed.

Lemma dict_get_some (data : payload) k v : data !! k = Some v -> dict_get data k = v.
Proof. unfold dict_get. intros ->. reflexivity. Qed.

Lemma dict_get_default_none (data : payload) k d :
  data !! k = None -> dict_get_default data k d = d.
Proof. unfold dict_get_default. intros ->. reflexivity. Qed.

Lemma dict_get_default_some (data : payload) k d v :
  data !! k = Some v -> dict_get_default data k d = v.
Proof. unfold dict_get_default. intros ->. reflexivity. Qed.

(** * Properties of the relay *)

(** Counterexample to C1 as stated: on [control{sessionId: "ab12cd34"}],
    which has no [direction], the handler does not return normally; the
    subscript [data['direction']] raises [KeyError]. *)
Lemma C1_control_without_direction_raises :
  only_session_id !! "direction" = None
  /\ handle_control "c1" only_session_id init
     = Outcome (Raise (KeyError "direction")) init []
  /\ ~ control_dropped_quietly "c1" only_session_id init.
Proof.
  assert (Hnone : only_session_id !! "direction" = None) by reflexivity.
  assert (Hrun : handle_control "c1" only_session_id init
                 = Outcome (Raise (KeyError "direction")) init []).
  { rewrite handle_control_eq, Hnone. reflexivity. }
  split; [exact Hnone | split; [exact Hrun |]].
  intros Hquiet. destruct (Hquiet Hnone) as (u & Hres & _).
  rewrite Hrun in Hres. discriminate Hres.
Qed.

(** C1, amended: for every inbound control event whose payload lacks the
    [direction] field, whether or not [sessionId] is present, the control
    handler makes no call to the transport (so no broadcast), leaves both
    tables as they were, and raises [KeyError('direction')] instead of
    returning; it is the transport's dispatcher that receives the
    exception. *)
Theorem C1_control_without_direction (me : sid) (data : payload) (st : state) :
  data !! "direction" = None ->
  res (handle_control me data st) = Raise (KeyError "direction")
  /\ log (handle_control me data st) = []
  /\ emits (log (handle_control me data st)) = []
  /\ post (handle_control me data st) = st.
Proof.
  intros Hnone. rewrite handle_control_eq, Hnone. repeat split.
Qed.

Lemma C1_control_without_direction_witness :
  (only_session_id !! "direction" = None
   /\ res (handle_control "c1" only_session_id init) = Raise (KeyError "direction")
   /\ log (handle_control "c1" only_session_id init) = []
   /\ emits (log (handle_control "c1" only_session_id init)) = []
   /\ post (handle_control "c1" only_session_id init) = init)
  /\ ((∅ : payload) !! "direction" = None
      /\ res (handle_control "c1" ∅ init) = Raise (KeyError "direction")
      /\ log (handle_control "c1" ∅ init) = []
      /\ emits (log (handle_control "c1" ∅ init)) = []
      /\ post (handle_control "c1" ∅ init) = init).
Proof.
  split.
  - split; [reflexivity | apply (C1_control_without_direction "c1" only_session_id init); reflexivity].
  - split; [reflexivity | apply (C1_control_without_direction "c1" ∅ init); reflexivity].
Defined.

(** C2: for every inbound event carrying a [sessionId], whatever the
    handler broadcasts goes to the room named by that [sessionId]: for
    [control], [score_update] and [restart_game] it is handed to every
    member of the room except the sender, for [start_game] and [end_game]
    to the whole room with nobody skipped, and a [control] broadcast
    carries the inbound [direction] value unchanged.  When the
    [sessionId] is a JSON scalar (a hashable room) each handler returns
    normally with exactly that one broadcast. *)
Theorem C2_fan_out (me : sid) (data : payload) (s : value) (st : state) :
  data !! "sessionId" = Some s ->
  (forall c, c ∈ log (handle_control me data st)
             \/ c ∈ log (handle_score me data st)
             \/ c ∈ log (handle_restart me data st) ->
             all_but_sender me c /\ exists ev body, c = Emit me ev body s false)
  /\ (forall c, c ∈ log (handle_start me data st)
                \/ c ∈ log (handle_end me data st) ->
                whole_room c /\ exists ev body, c = Emit me ev body s true)
  /\ (forall d c, data !! "direction" = Some d ->
        c ∈ log (handle_control me data st) ->
        c = Emit me "control" {[ "direction" := d ]} s false)
  /\ (hashable s = true ->
      (forall d, data !! "direction" = Some d ->
         handle_control me data st
         = Outcome (Ok tt) st [Emit me "control" {[ "direction" := d ]} s false])
      /\ handle_score me data st
         = Outcome (Ok tt) st
             [Emit me "score_update"
                (<[ "score" := dict_get_default data "score" (VInt 0) ]>
                   {[ "coins" := dict_get_default data "coins" (VInt 0) ]}) s false]
      /\ handle_restart me data st
         = Outcome (Ok tt) st [Emit me "restart_game" ∅ s false]
      /\ handle_start me data st
         = Outcome (Ok tt) st [Emit me "game_started" ∅ s true]
      /\ handle_end me data st
         = Outcome (Ok tt) st
             [Emit me "game_ended"
                (<[ "score" := dict_get_default data "score" (VInt 0) ]>
                   {[ "coins" := dict_get_default data "coins" (VInt 0) ]}) s true]).
Proof.
  intros Hs. pose proof (dict_get_some _ _ _ Hs) as Hget.
  rewrite handle_score_eq, handle_restart_eq, handle_start_eq, handle_end_eq,
    handle_control_eq, Hget.
  split; [|split; [|split]].
  - intros c [Hc | [Hc | Hc]].
    + destruct (data !! "direction"); cbn [log] in Hc;
        [|apply elem_of_nil in Hc; contradiction].
      apply log_emit_elem in Hc as ->. split; [apply emit_false_all_but_sender | eauto].
    + apply log_emit_elem in Hc as ->. split; [apply emit_false_all_but_sender | eauto].
    + apply log_emit_elem in Hc as ->. split; [apply emit_false_all_but_sender | eauto].
  - intros c [Hc | Hc]; apply log_emit_elem in Hc as ->;
      (split; [apply emit_true_whole_room | eauto]).
  - intros d c ->. apply log_emit_elem.
  - intros Hh. rewrite !(emit_plain _ _ _ _ _ _ Hh).
    split; [intros d ->; apply emit_plain, Hh|]. repeat split.
Qed.

(** C2 at [control{sessionId: "ab12cd34", direction: "left"}] sent by "c1",
    with "c1" and "d1" in the room: only "d1" is handed the event. *)
Lemma C2_fan_out_witness :
  control_left !! "sessionId" = Some (VStr "ab12cd34")
  /\ handle_control "c1" control_left init
     = Outcome (Ok tt) init
         [Emit "c1" "control" {[ "direction" := VStr "left" ]} (VStr "ab12cd34") false]
  /\ (forall c, c ∈ log (handle_control "c1" control_left init) ->
                recipients ["d1"; "c1"] c = ["d1"])
  /\ (forall c, c ∈ log (handle_start "c1" control_left init) ->
                recipients ["d1"; "c1"] c = ["d1"; "c1"]).
Proof.
  assert (Hs : control_left !! "sessionId" = Some (VStr "ab12cd34")) by reflexivity.
  destruct (C2_fan_out "c1" control_left (VStr "ab12cd34") init Hs)
    as (_ & Hwhole & Hdir & Hplain).
  destruct (Hplain eq_refl) as (Hcontrol & _).
  split; [exact Hs|].
  split; [apply Hcontrol; reflexivity|].
  split.
  - intros c Hc. rewrite (Hdir (VStr "left") c eq_refl Hc). reflexivity.
  - intros c Hc. apply Hwhole. left. exact Hc.
Defined.

(** ** How a request changes the two tables *)

Lemma post_bind_ret {A B} (m : M A) (b : B) (st : state) :
  post (bind m (fun _ => ret b) st) = post (m st).
Proof. unfold bind, ret. cbv zeta. destruct (res (m st)); reflexivity. Qed.

Lemma res_bind_ret {A B} (m : M A) (b : B) (st : state) :
  res (bind m (fun _ => ret b) st)
  = match res (m st) with Ok _ => Ok b | Raise e => Raise e end.
Proof. unfold bind, ret. cbv zeta. destruct (res (m st)); reflexivity. Qed.

Lemma log_bind_ret {A B} (m : M A) (b : B) (st : state) :
  log (bind m (fun _ => ret b) st) = log (m st).
Proof.
  unfold bind, ret. cbv zeta.
  destruct (res (m st)); cbn [log]; [apply app_nil_r | reflexivity].
Qed.

Lemma step_create (uuid4 : string) (net : net_env) (st : state) :
  step (CreateSession uuid4 net) st =
  if socket_works net then
    Outcome (Ok (Some (Response (short_id uuid4) (ip_after_try net) 5173)))
      (State (<[short_id uuid4 := Session [] "waiting"]> (sessions st))
             (socket_map st))
      []
  else Outcome (Raise OSError) st [].
Proof.
  cbn [step]. unfold bind. rewrite create_session_eq.
  destruct (socket_works net); reflexivity.
Qed.

Lemma post_handle_control (me : sid) (data : payload) (st : state) :
  post (handle_control me data st) = st.
Proof.
  rewrite handle_control_eq. destruct (data !! "direction"); [apply post_emit | reflexivity].
Qed.

Lemma post_handle_disconnect (me : sid) (st : state) :
  post (handle_disconnect me st) = State (sessions st) (delete me (socket_map st)).
Proof.
  rewrite handle_disconnect_eq. cbv zeta.
  destruct (socket_map st !! me) as [info|]; [|reflexivity].
  destruct (eq_str (b_role info) "controller"); [apply post_emit | reflexivity].
Qed.

Lemma post_handle_join (me : sid) (data : payload) (st : state) :
  post (handle_join me data st) =
  if admitted data
  then State (sessions st) (<[me := binding_of data]> (socket_map st))
  else st.
Proof.
  rewrite handle_join_eq. cbv zeta. unfold admitted.
  destruct (hashable (dict_get data "sessionId")); reflexivity.
Qed.

(** The tables after one request. *)
Lemma post_step (r : request) (st : state) :
  post (step r st) =
  match r with
  | CreateSession uuid4 net =>
      if socket_works net
      then State (<[short_id uuid4 := Session [] "waiting"]> (sessions st))
                 (socket_map st)
      else st
  | JoinSession me data =>
      if admitted data
      then State (sessions st) (<[me := binding_of data]> (socket_map st))
      else st
  | Disconnect me => State (sessions st) (delete me (socket_map st))
  | _ => st
  end.
Proof.
  destruct r as [u net|me data|me data|me data|me data|me data|me data|me];
    [rewrite step_create; destruct (socket_works net); reflexivity|..];
    cbn [step]; rewrite post_bind_ret.
  - apply post_handle_join.
  - apply post_handle_control.
  - apply post_emit.
  - apply post_emit.
  - apply post_emit.
  - apply post_emit.
  - apply post_handle_disconnect.
Qed.

Lemma step_sessions (r : request) (st : state) :
  sessions (post (step r st)) =
  match r with
  | CreateSession uuid4 net =>
      if socket_works net
      then <[short_id uuid4 := Session [] "waiting"]> (sessions st)
      else sessions st
  | _ => sessions st
  end.
Proof.
  rewrite post_step.
  destruct r as [u net|me data|me data|me data|me data|me data|me data|me];
    try reflexivity.
  - destruct (socket_works net); reflexivity.
  - destruct (admitted data); reflexivity.
Qed.

Lemma step_socket_map (r : request) (st : state) :
  socket_map (post (step r st)) =
  match r with
  | JoinSession me data =>
      if admitted data then <[me := binding_of data]> (socket_map st)
      else socket_map st
  | Disconnect me => delete me (socket_map st)
  | _ => socket_map st
  end.
Proof.
  rewrite post_step.
  destruct r as [u net|me data|me data|me data|me data|me data|me data|me];
    try reflexivity.
  - destruct (socket_works net); reflexivity.
  - destruct (admitted data); reflexivity.
Qed.

Lemma all_waiting_step (r : request) (st : state) :
  all_waiting st -> all_waiting (post (step r st)).
Proof.
  intros Hst k s. rewrite step_sessions. destruct r; try apply Hst.
  destruct (socket_works net); [|apply Hst].
  rewrite lookup_insert. case_decide; [congruence | apply Hst].
Qed.

Lemma all_waiting_run (rs : list request) (st : state) :
  all_waiting st -> all_waiting (run rs st).
Proof.
  revert st. induction rs as [|r rs IH]; intros st Hst; [exact Hst|].
  apply IH, all_waiting_step, Hst.
Qed.

Lemma all_waiting_reachable (st : state) : reachable st -> all_waiting st.
Proof.
  intros [rs ->]. apply all_waiting_run. intros k s. cbn. rewrite lookup_empty.
  discriminate.
Qed.

Lemma bindings_ok_step (r : request) (st : state) :
  bindings_ok st -> bindings_ok (post (step r st)).
Proof.
  intros Hst c b. rewrite step_socket_map.
  destruct r as [u net|me data|me data|me data|me data|me data|me data|me];
    try apply Hst.
  - destruct (admitted data) eqn:Hadm; [|apply Hst].
    rewrite lookup_insert. case_decide; [|apply Hst].
    intros [= <-]. exact Hadm.
  - rewrite lookup_delete. case_decide; [discriminate | apply Hst].
Qed.

Lemma bindings_ok_run (rs : list request) (st : state) :
  bindings_ok st -> bindings_ok (run rs st).
Proof.
  revert st. induction rs as [|r rs IH]; intros st Hst; [exact Hst|].
  apply IH, bindings_ok_step, Hst.
Qed.

(** On the tables that the server can reach, every binding names a room
    that [join_room] took. *)
Lemma bindings_ok_reachable (st : state) : reachable st -> bindings_ok st.
Proof.
  intros [rs ->]. apply bindings_ok_run. intros c b. cbn. rewrite lookup_empty.
  discriminate.
Qed.

Lemma session_kept_step (r : request) (st : state) k s :
  all_waiting st -> sessions st !! k = Some s ->
  sessions (post (step r st)) !! k = Some s.
Proof.
  intros Hst Hk. rewrite step_sessions. destruct r; try exact Hk.
  destruct (socket_works net); [|exact Hk].
  rewrite lookup_insert. case_decide; [|exact Hk].
  rewrite (Hst _ _ Hk). reflexivity.
Qed.

Lemma session_kept_run (rs : list request) (st : state) k s :
  all_waiting st -> sessions st !! k = Some s ->
  sessions (run rs st) !! k = Some s.
Proof.
  revert st. induction rs as [|r rs IH]; intros st Hst Hk; [exact Hk|].
  cbn [run]. apply IH; [apply all_waiting_step, Hst | apply session_kept_step; assumption].
Qed.

Lemma relay_run_sessions (rs : list request) (st : state) :
  Forall (fun r => is_relay r = true) rs -> sessions (run rs st) = sessions st.
Proof.
  revert st. induction rs as [|r rs IH]; intros st Hrs; [reflexivity|].
  inversion Hrs as [|? ? Hr Hrs']; subst. cbn [run].
  rewrite (IH _ Hrs'), step_sessions. destruct r; try reflexivity. discriminate Hr.
Qed.

Lemma paired_reachable : reachable paired.
Proof. eexists. reflexivity. Qed.

(** C3: on disconnect of a connection, from tables in which every binding
    names a room that [join_room] took (as on all tables the server can
    reach), the handler returns normally with the connection's binding
    deleted and every other binding kept, and a second disconnect finds
    nothing left to delete; when a binding existed with role [controller]
    the only call to the transport is one [controller_disconnected{}]
    broadcast to that binding's session room; when the role was [desktop]
    (or anything but [controller]) or no binding existed, no call is
    made. *)
Theorem C3_disconnect (me : sid) (st : state) :
  bindings_ok st ->
  res (handle_disconnect me st) = Ok tt
  /\ post (handle_disconnect me st)
     = State (sessions st) (delete me (socket_map st))
  /\ socket_map (post (handle_disconnect me st)) !! me = None
  /\ (forall c, c <> me ->
        socket_map (post (handle_disconnect me st)) !! c = socket_map st !! c)
  /\ handle_disconnect me (post (handle_disconnect me st))
     = Outcome (Ok tt) (post (handle_disconnect me st)) []
  /\ (forall info, socket_map st !! me = Some info ->
        b_role info = VStr "controller" ->
        log (handle_disconnect me st)
        = [Emit me "controller_disconnected" ∅ (b_sessionId info) true])
  /\ (forall info, socket_map st !! me = Some info ->
        b_role info = VStr "desktop" ->
        log (handle_disconnect me st) = [])
  /\ (forall info, socket_map st !! me = Some info ->
        b_role info <> VStr "controller" ->
        log (handle_disconnect me st) = [])
  /\ (socket_map st !! me = None -> log (handle_disconnect me st) = []).
Proof.
  intros Hok. rewrite post_handle_disconnect. cbn [socket_map sessions].
  split.
  { rewrite handle_disconnect_eq. cbv zeta.
    destruct (socket_map st !! me) as [info|] eqn:Hme; [|reflexivity].
    destruct (eq_str (b_role info) "controller"); [|reflexivity].
    rewrite emit_plain by exact (Hok _ _ Hme). reflexivity. }
  split; [reflexivity|].
  split; [apply lookup_delete_eq|].
  split; [intros c Hc; apply lookup_delete_ne; congruence|].
  split.
  { rewrite handle_disconnect_eq. cbv zeta. cbn [socket_map sessions].
    rewrite lookup_delete_eq, delete_delete_eq. reflexivity. }
  rewrite handle_disconnect_eq. cbv zeta.
  split.
  { intros info Hme Hrole. rewrite Hme. apply eq_str_true in Hrole. rewrite Hrole.
    rewrite emit_plain by exact (Hok _ _ Hme). reflexivity. }
  split.
  { intros info -> Hrole. rewrite Hrole. reflexivity. }
  split.
  { intros info -> Hrole. apply eq_str_false in Hrole. rewrite Hrole. reflexivity. }
  intros ->. reflexivity.
Qed.

(** C3 on the table [paired]: the controller "c1" leaves with one
    broadcast, the desktop "d1" and the unbound "x9" leave with none. *)
Lemma C3_disconnect_witness :
  bindings_ok paired
  /\ log (handle_disconnect "c1" paired)
     = [Emit "c1" "controller_disconnected" ∅ (VStr "ab12cd34") true]
  /\ socket_map (post (handle_disconnect "c1" paired)) !! "c1" = None
  /\ log (handle_disconnect "d1" paired) = []
  /\ handle_disconnect "x9" paired = Outcome (Ok tt) (post (handle_disconnect "x9" paired)) []
  /\ socket_map (post (handle_disconnect "x9" paired)) !! "d1"
     = Some (Binding (VStr "ab12cd34") (VStr "desktop")).
Proof.
  pose proof (bindings_ok_reachable _ paired_reachable) as Hok.
  destruct (C3_disconnect "c1" paired Hok) as (_ & _ & Hgone & _ & _ & Hctl & _).
  destruct (C3_disconnect "d1" paired Hok) as (_ & _ & _ & _ & _ & _ & Hdesk & _).
  destruct (C3_disconnect "x9" paired Hok)
    as (Hres & _ & _ & Hkeep & _ & _ & _ & _ & Hnone).
  split; [exact Hok|].
  split; [apply (Hctl (Binding (VStr "ab12cd34") (VStr "controller"))); reflexivity|].
  split; [exact Hgone|].
  split; [apply (Hdesk (Binding (VStr "ab12cd34") (VStr "desktop"))); reflexivity|].
  split.
  - specialize (Hnone eq_refl).
    destruct (handle_disconnect "x9" paired) as [r p l]. cbn [res post log] in *.
    rewrite Hres, Hnone. reflexivity.
  - rewrite Hkeep by discriminate. reflexivity.
Defined.

(** Counterexample to C4 as stated: a join with role 'spectator' whose
    [sessionId] is the JSON array ['a'].  [join_room] raises [TypeError]
    on the unhashable room, before the binding is assigned: the join
    errors and records nothing. *)
Lemma C4_join_with_array_session_raises :
  dict_get join_array_spectator "sessionId" = VList [VStr "a"]
  /\ handle_join "s1" join_array_spectator init = Outcome (Raise TypeError) init []
  /\ socket_map (post (handle_join "s1" join_array_spectator init)) !! "s1" = None
  /\ ~ other_role_join_accepted "s1" join_array_spectator init.
Proof.
  assert (Hrun : handle_join "s1" join_array_spectator init
                 = Outcome (Raise TypeError) init []) by reflexivity.
  split; [reflexivity|]. split; [exact Hrun|]. split; [reflexivity|].
  intros Hacc. destruct Hacc as (Hres & _); [discriminate | discriminate |].
  rewrite Hrun in Hres. discriminate Hres.
Qed.

(** C4, amended: every join whose [sessionId] is absent or a JSON scalar
    returns normally, enters the connection into the room named by
    [sessionId] and records the binding [{sessionId, role}] for it,
    whatever the session table holds (no lookup of [sessionId] in it is
    made, and the result and the calls do not depend on the tables); with
    role [controller] the one broadcast is [player_joined{name}] to the
    whole room, with role [desktop] it is [desktop_ready{sessionId}] to
    the whole room, and with any other role there is no broadcast.  A join
    whose [sessionId] is a JSON array or object raises [TypeError] at
    [join_room]: nothing is recorded and nothing is broadcast. *)
Theorem C4_join (me : sid) (data : payload) (st : state) :
  (hashable (dict_get data "sessionId") = true ->
   res (handle_join me data st) = Ok tt
   /\ post (handle_join me data st)
      = State (sessions st)
          (<[me := Binding (dict_get data "sessionId") (dict_get data "role")]>
             (socket_map st))
   /\ socket_map (post (handle_join me data st)) !! me
      = Some (Binding (dict_get data "sessionId") (dict_get data "role"))
   /\ (dict_get data "role" = VStr "controller" ->
         log (handle_join me data st)
         = [JoinRoom me (dict_get data "sessionId");
            Emit me "player_joined"
              {[ "name" := dict_get_default data "name" (VStr "Player") ]}
              (dict_get data "sessionId") true])
   /\ (dict_get data "role" = VStr "desktop" ->
         log (handle_join me data st)
         = [JoinRoom me (dict_get data "sessionId");
            Emit me "desktop_ready"
              {[ "sessionId" := dict_get data "sessionId" ]}
              (dict_get data "sessionId") true])
   /\ (dict_get data "role" <> VStr "controller" ->
       dict_get data "role" <> VStr "desktop" ->
         log (handle_join me data st) = [JoinRoom me (dict_get data "sessionId")]
         /\ emits (log (handle_join me data st)) = []))
  /\ (hashable (dict_get data "sessionId") = false ->
        handle_join me data st = Outcome (Raise TypeError) st [])
  /\ (forall st', res (handle_join me data st') = res (handle_join me data st)
                  /\ log (handle_join me data st') = log (handle_join me data st))
  /\ (forall c, c ∈ emits (log (handle_join me data st)) -> whole_room c).
Proof.
  split; [|split; [|split]].
  - intros Hh. rewrite handle_join_eq. cbv zeta. rewrite Hh. cbn [res post log socket_map].
    split; [reflexivity|]. split; [reflexivity|].
    split; [apply lookup_insert_eq|].
    split; [intros ->; reflexivity|].
    split; [intros ->; reflexivity|].
    intros Hc Hd. apply eq_str_false in Hc, Hd. rewrite Hc, Hd. split; reflexivity.
  - intros Hh. rewrite handle_join_eq. cbv zeta. rewrite Hh. reflexivity.
  - intros st'. rewrite !handle_join_eq. cbv zeta.
    destruct (hashable (dict_get data "sessionId")); split; reflexivity.
  - intros c. rewrite handle_join_eq. cbv zeta.
    destruct (hashable (dict_get data "sessionId")); cbn [log];
      [|intros Hc; apply elem_of_nil in Hc; contradiction].
    destruct (eq_str (dict_get data "role") "controller");
      [|destruct (eq_str (dict_get data "role") "desktop")];
      cbn [emits List.filter is_emit]; intros Hc.
    + apply list_elem_of_singleton in Hc as ->. apply emit_true_whole_room.
    + apply list_elem_of_singleton in Hc as ->. apply emit_true_whole_room.
    + apply elem_of_nil in Hc. contradiction.
Qed.

(** C4, amended, on the empty tables, where session "ab12cd34" does not
    exist: a controller named Ana, a desktop, a role that is neither, and
    a join that the transport refuses. *)
Lemma C4_join_witness :
  sessions init !! "ab12cd34" = None
  /\ log (handle_join "c1" join_controller_ana init)
     = [JoinRoom "c1" (VStr "ab12cd34");
        Emit "c1" "player_joined" {[ "name" := VStr "Ana" ]} (VStr "ab12cd34") true]
  /\ log (handle_join "d1" join_desktop init)
     = [JoinRoom "d1" (VStr "ab12cd34");
        Emit "d1" "desktop_ready" {[ "sessionId" := VStr "ab12cd34" ]}
          (VStr "ab12cd34") true]
  /\ log (handle_join "s1" join_spectator init) = [JoinRoom "s1" (VStr "ab12cd34")]
  /\ res (handle_join "s1" join_spectator init) = Ok tt
  /\ socket_map (post (handle_join "s1" join_spectator init)) !! "s1"
     = Some (Binding (VStr "ab12cd34") (VStr "spectator"))
  /\ handle_join "s1" join_array_spectator init = Outcome (Raise TypeError) init [].
Proof.
  destruct (C4_join "c1" join_controller_ana init) as (Hctl & _).
  destruct (C4_join "d1" join_desktop init) as (Hdesk & _).
  destruct (C4_join "s1" join_spectator init) as (Hother & _).
  destruct (C4_join "s1" join_array_spectator init) as (_ & Hrefused & _).
  destruct (Hctl eq_refl) as (_ & _ & _ & Hc & _).
  destruct (Hdesk eq_refl) as (_ & _ & _ & _ & Hd & _).
  destruct (Hother eq_refl) as (Hres & _ & Hbind & _ & _ & Ho).
  split; [reflexivity|].
  split; [apply Hc; reflexivity|].
  split; [apply Hd; reflexivity|].
  split; [apply Ho; discriminate|].
  split; [exact Hres|]. split; [exact Hbind|].
  apply Hrefused. reflexivity.
Defined.

(** C10: for every join whose role is [controller] and whose payload has
    no [name] field, a [player_joined] broadcast carries the name
    'Player': whatever the handler broadcasts is that event, and when the
    [sessionId] is absent or a JSON scalar it is broadcast. *)
Theorem C10_default_name (me : sid) (data : payload) (st : state) :
  data !! "role" = Some (VStr "controller") ->
  data !! "name" = None ->
  (forall c, c ∈ emits (log (handle_join me data st)) ->
     c = Emit me "player_joined" {[ "name" := VStr "Player" ]}
           (dict_get data "sessionId") true)
  /\ (hashable (dict_get data "sessionId") = true ->
        emits (log (handle_join me data st))
        = [Emit me "player_joined" {[ "name" := VStr "Player" ]}
             (dict_get data "sessionId") true]).
Proof.
  intros Hrole Hname. rewrite handle_join_eq. cbv zeta.
  rewrite (dict_get_some _ _ _ Hrole).
  unfold dict_get_default. rewrite Hname.
  destruct (hashable (dict_get data "sessionId")); cbn.
  - split; [|reflexivity]. intros c Hc. apply list_elem_of_singleton in Hc. exact Hc.
  - split; [|discriminate]. intros c Hc. apply elem_of_nil in Hc. contradiction.
Qed.

Lemma C10_default_name_witness :
  join_controller_anonymous !! "role" = Some (VStr "controller")
  /\ join_controller_anonymous !! "name" = None
  /\ emits (log (handle_join "c1" join_controller_anonymous init))
     = [Emit "c1" "player_joined" {[ "name" := VStr "Player" ]} (VStr "ab12cd34") true].
Proof.
  split; [reflexivity|]. split; [reflexivity|].
  apply (C10_default_name "c1" join_controller_anonymous init); reflexivity.
Defined.

(** C7: in whatever an [end_game] or a [score_update] event broadcasts,
    each of [score] and [coins] that the inbound payload omits is 0, and
    each that it carries is passed on; when the [sessionId] is absent or a
    JSON scalar the broadcast is made, and with neither field
    [end_game{sessionId}] yields [game_ended{score: 0, coins: 0}]. *)
Theorem C7_score_coins_default (me : sid) (data : payload) (st : state) :
  (forall sender ev body room incl,
     Emit sender ev body room incl ∈ log (handle_end me data st)
     \/ Emit sender ev body room incl ∈ log (handle_score me data st) ->
     (data !! "score" = None -> body !! "score" = Some (VInt 0))
     /\ (data !! "coins" = None -> body !! "coins" = Some (VInt 0))
     /\ (forall v, data !! "score" = Some v -> body !! "score" = Some v)
     /\ (forall v, data !! "coins" = Some v -> body !! "coins" = Some v))
  /\ (hashable (dict_get data "sessionId") = true ->
      (data !! "score" = None ->
         broadcast_field (handle_end me data st) "score" = Some (VInt 0)
         /\ broadcast_field (handle_score me data st) "score" = Some (VInt 0))
      /\ (data !! "coins" = None ->
            broadcast_field (handle_end me data st) "coins" = Some (VInt 0)
            /\ broadcast_field (handle_score me data st) "coins" = Some (VInt 0))
      /\ (forall v, data !! "score" = Some v ->
            broadcast_field (handle_end me data st) "score" = Some v
            /\ broadcast_field (handle_score me data st) "score" = Some v)
      /\ (forall v, data !! "coins" = Some v ->
            broadcast_field (handle_end me data st) "coins" = Some v
            /\ broadcast_field (handle_score me data st) "coins" = Some v)
      /\ (data !! "score" = None -> data !! "coins" = None ->
            handle_end me data st
            = Outcome (Ok tt) st
                [Emit me "game_ended"
                   (<[ "score" := VInt 0 ]> {[ "coins" := VInt 0 ]})
                   (dict_get data "sessionId") true]
            /\ handle_score me data st
               = Outcome (Ok tt) st
                   [Emit me "score_update"
                      (<[ "score" := VInt 0 ]> {[ "coins" := VInt 0 ]})
                      (dict_get data "sessionId") false])).
Proof.
  rewrite handle_end_eq, handle_score_eq.
  assert (Hscore : forall v c : value,
            (<[ "score" := v ]> ({[ "coins" := c ]} : payload)) !! "score" = Some v)
    by (intros; apply lookup_insert_eq).
  assert (Hcoins : forall v c : value,
            (<[ "score" := v ]> ({[ "coins" := c ]} : payload)) !! "coins" = Some c).
  { intros. rewrite lookup_insert_ne by discriminate. apply lookup_singleton_eq. }
  split.
  - intros sender ev body room incl [Hin | Hin];
      apply log_emit_elem in Hin; injection Hin as -> -> -> -> ->;
      rewrite Hscore, Hcoins;
      (split; [intros H; rewrite (dict_get_default_none _ _ _ H); reflexivity|]);
      (split; [intros H; rewrite (dict_get_default_none _ _ _ H); reflexivity|]);
      (split; intros v H; rewrite (dict_get_default_some _ _ _ _ H); reflexivity).
  - intros Hh. rewrite !(emit_plain _ _ _ _ _ _ Hh). unfold broadcast_field. cbn [log].
    rewrite !Hscore, !Hcoins.
    split; [intros H; rewrite (dict_get_default_none _ _ _ H); auto|].
    split; [intros H; rewrite (dict_get_default_none _ _ _ H); auto|].
    split; [intros v H; rewrite (dict_get_default_some _ _ _ _ H); auto|].
    split; [intros v H; rewrite (dict_get_default_some _ _ _ _ H); auto|].
    intros H1 H2.
    rewrite (dict_get_default_none _ _ _ H1), (dict_get_default_none _ _ _ H2). auto.
Qed.

(** C7 at [end_game{sessionId: "ab12cd34"}] and at the [score_update]
    with the same payload. *)
Lemma C7_score_coins_default_witness :
  only_session_id !! "score" = None
  /\ only_session_id !! "coins" = None
  /\ handle_end "d1" only_session_id init
     = Outcome (Ok tt) init
         [Emit "d1" "game_ended" (<[ "score" := VInt 0 ]> {[ "coins" := VInt 0 ]})
            (VStr "ab12cd34") true]
  /\ handle_score "d1" only_session_id init
     = Outcome (Ok tt) init
         [Emit "d1" "score_update" (<[ "score" := VInt 0 ]> {[ "coins" := VInt 0 ]})
            (VStr "ab12cd34") false].
Proof.
  split; [reflexivity|]. split; [reflexivity|].
  destruct (C7_score_coins_default "d1" only_session_id init) as (_ & Hplain).
  destruct (Hplain eq_refl) as (_ & _ & _ & _ & Hboth).
  apply Hboth; reflexivity.
Defined.




(** C9: no relay request (join, control, start_game, end_game,
    score_update, restart_game, disconnect) changes the session table, one
    at a time or in any sequence; in every table the server can reach each
    record is still [{players: [], status: 'waiting'}]; and a record that
    is in the table stays in it, unchanged, whatever requests follow. *)
Theorem C9_session_table_frame (rs : list request) (st : state) :
  (forall r, is_relay r = true -> sessions (post (step r st)) = sessions st)
  /\ (Forall (fun r => is_relay r = true) rs -> sessions (run rs st) = sessions st)
  /\ (reachable st ->
        (forall k s, sessions st !! k = Some s ->
           players s = [] /\ status s = "waiting")
        /\ (forall k s, sessions st !! k = Some s -> sessions (run rs st) !! k = Some s)).
Proof.
  split.
  { intros r Hr. rewrite step_sessions. destruct r; try reflexivity. discriminate Hr. }
  split; [apply relay_run_sessions|].
  intros Hreach. pose proof (all_waiting_reachable _ Hreach) as Hst. split.
  - intros k s Hk. rewrite (Hst _ _ Hk). split; reflexivity.
  - intros k s Hk. apply session_kept_run; assumption.
Qed.

(** C9 along [game]: after the creation, the eight relay requests leave
    the table with its one record. *)
Lemma C9_session_table_frame_witness :
  reachable (run [CreateSession uuid_a lan] init)
  /\ sessions (run game init) = sessions (run [CreateSession uuid_a lan] init)
  /\ sessions (run game init) !! "ab12cd34" = Some (Session [] "waiting").
Proof.
  assert (Hreach : reachable (run [CreateSession uuid_a lan] init))
    by (exists [CreateSession uuid_a lan]; reflexivity).
  destruct (C9_session_table_frame (tail game) (run [CreateSession uuid_a lan] init))
    as (_ & Hframe & Hkeep).
  assert (Hrelay : Forall (fun r => is_relay r = true) (tail game))
    by (repeat constructor).
  split; [exact Hreach|]. split.
  - exact (Hframe Hrelay).
  - apply (proj2 (Hkeep Hreach)). apply lookup_insert_eq.
Defined.

(** Counterexample to C6 as stated: two distinct UUIDs that share their
    first eight characters.  The second creation returns "ab12cd34", which
    is the key of the session that the first creation made, and assigns to
    that key again. *)
Lemma C6_second_creation_collides :
  uuid_a <> uuid_b
  /\ r_sessionId <$> (match res (create_session uuid_b lan (run [CreateSession uuid_a lan] init))
                      with Ok resp => Some resp | Raise _ => None end)
     = Some "ab12cd34"
  /\ is_Some (sessions (run [CreateSession uuid_a lan] init) !! "ab12cd34")
  /\ ~ creation_returns_fresh_id uuid_b lan (run [CreateSession uuid_a lan] init).
Proof.
  split; [discriminate|]. split; [reflexivity|].
  assert (Hlive : sessions (run [CreateSession uuid_a lan] init) !! "ab12cd34"
                  = Some (Session [] "waiting")) by apply lookup_insert_eq.
  split; [rewrite Hlive; eauto|].
  intros Hfresh. specialize (Hfresh _ eq_refl). cbn [r_sessionId] in Hfresh.
  change (short_id uuid_b) with "ab12cd34" in Hfresh.
  rewrite Hlive in Hfresh. discriminate Hfresh.
Qed.

(** C6, amended: every session creation whose socket works returns
    normally with the first eight characters of the drawn UUID as
    [sessionId], stores the record [{players: [], status: 'waiting'}]
    under that key and leaves the record under every other key, and the
    binding table, as they were.  No uniqueness check is made: when that
    key is not yet in the table the creation adds one session to it, and
    when it is already there the creation assigns the fresh record to the
    existing key and the table keeps the same keys. *)
Theorem C6_creation_inserts (uuid4 : string) (net : net_env) (st : state) :
  socket_works net = true ->
  (exists resp, res (create_session uuid4 net st) = Ok resp
                /\ r_sessionId resp = short_id uuid4)
  /\ sessions (post (create_session uuid4 net st)) !! short_id uuid4
     = Some (Session [] "waiting")
  /\ (forall k, k <> short_id uuid4 ->
        sessions (post (create_session uuid4 net st)) !! k = sessions st !! k)
  /\ socket_map (post (create_session uuid4 net st)) = socket_map st
  /\ (sessions st !! short_id uuid4 = None ->
        size (sessions (post (create_session uuid4 net st))) = S (size (sessions st))
        /\ dom (sessions (post (create_session uuid4 net st)))
           = {[ short_id uuid4 ]} ∪ dom (sessions st)
        /\ creation_returns_fresh_id uuid4 net st)
  /\ (is_Some (sessions st !! short_id uuid4) ->
        dom (sessions (post (create_session uuid4 net st))) = dom (sessions st)).
Proof.
  intros Hnet. unfold creation_returns_fresh_id. rewrite create_session_eq, Hnet.
  cbn [res post sessions socket_map].
  split; [eexists; split; reflexivity|].
  split; [apply lookup_insert_eq|].
  split; [intros k Hk; apply lookup_insert_ne; congruence|].
  split; [reflexivity|].
  split.
  - intros Hnone. split; [apply map_size_insert_None, Hnone|].
    split; [apply dom_insert_L|].
    intros resp [= <-]. exact Hnone.
  - intros Hsome. apply dom_insert_lookup_L, Hsome.
Qed.

(** C6, amended, at the first creation (a new key) and at the colliding
    second one (the same keys). *)
Lemma C6_creation_inserts_witness :
  socket_works lan = true
  /\ size (sessions (post (create_session uuid_a lan init))) = 1%nat
  /\ creation_returns_fresh_id uuid_a lan init
  /\ dom (sessions (post (create_session uuid_b lan (run [CreateSession uuid_a lan] init))))
     = dom (sessions (run [CreateSession uuid_a lan] init)).
Proof.
  destruct (C6_creation_inserts uuid_a lan init eq_refl) as (_ & _ & _ & _ & Hnew & _).
  destruct (C6_creation_inserts uuid_b lan (run [CreateSession uuid_a lan] init) eq_refl)
    as (_ & _ & _ & _ & _ & Hold).
  destruct (Hnew (lookup_empty _)) as (Hsize & _ & Hfresh).
  split; [reflexivity|]. split; [exact Hsize|]. split; [exact Hfresh|].
  apply Hold. change (short_id uuid_b) with "ab12cd34".
  cbn. rewrite lookup_insert_eq. eauto.
Defined.

(** ** Bindings along a run *)

Lemma joined_and_connected_nil (c : sid) : ~ joined_and_connected c [].
Proof.
  intros (before & data & after & Heq & _). destruct before; discriminate Heq.
Qed.

Lemma joined_and_connected_cons (c : sid) (r : request) (rs : list request) :
  joined_and_connected c (r :: rs) <->
  (exists data, r = JoinSession c data /\ admitted data = true /\ Disconnect c ∉ rs)
  \/ joined_and_connected c rs.
Proof.
  split.
  - intros (before & data & after & Heq & Hadm & Hafter).
    destruct before as [|r' before]; cbn in Heq; injection Heq as -> ->.
    + left. eauto.
    + right. exists before, data, after. auto.
  - intros [(data & -> & Hadm & Hrs) | (before & data & after & -> & Hadm & Hafter)].
    + exists [], data, rs. auto.
    + exists (r :: before), data, after. auto.
Qed.

(** From any tables: [c] is bound after [rs] exactly when an admitted join
    of [c] in [rs] has no disconnect of [c] after it, or [c] was bound
    before and did not disconnect in [rs]. *)
Lemma bound_after_run (c : sid) (rs : list request) (st : state) :
  is_Some (socket_map (run rs st) !! c) <->
  joined_and_connected c rs
  \/ (is_Some (socket_map st !! c) /\ Disconnect c ∉ rs).
Proof.
  revert st. induction rs as [|r rs IH]; intros st.
  - cbn [run]. pose proof (joined_and_connected_nil c) as Hnil.
    pose proof (not_elem_of_nil (Disconnect c)) as Hno. tauto.
  - cbn [run]. rewrite IH, joined_and_connected_cons, step_socket_map, not_elem_of_cons.
    destruct r as [u net|me data|me data|me data|me data|me data|me data|me];
      try (split;
           [ intros [H | [H1 H2]]; [tauto | right; repeat split; [assumption|discriminate|assumption]]
           | intros [[(d & Hd & _) | H] | [H1 [_ H2]]]; [discriminate Hd | tauto | tauto] ]).
    + destruct (admitted data) eqn:Hadm; [destruct (decide (me = c)) as [->|Hne]|].
      * rewrite lookup_insert_eq. split.
        -- intros [H | [_ H]]; [tauto | left; left; eauto].
        -- intros [[(d & _ & _ & H) | H] | [_ [_ H]]]; [right | tauto | right];
             (split; [eauto | exact H]).
      * rewrite lookup_insert_ne by exact Hne. split.
        -- intros [H | [H1 H2]]; [tauto | right; repeat split; [assumption|discriminate|assumption]].
        -- intros [[(d & Hd & _) | H] | [H1 [_ H2]]]; [congruence | tauto | tauto].
      * split.
        -- intros [H | [H1 H2]]; [tauto | right; repeat split; [assumption|discriminate|assumption]].
        -- intros [[(d & [= _ <-] & Hd & _) | H] | [H1 [_ H2]]]; [congruence | tauto | tauto].
    + destruct (decide (me = c)) as [->|Hne].
      * rewrite lookup_delete_eq. split.
        -- intros [H | [[b Hb] _]]; [tauto | discriminate Hb].
        -- intros [[(d & Hd & _) | H] | [_ [H _]]]; [discriminate Hd | tauto | congruence].
      * rewrite lookup_delete_ne by exact Hne. split.
        -- intros [H | [H1 H2]]; [tauto | right; repeat split; [assumption|congruence|assumption]].
        -- intros [[(d & Hd & _) | H] | [H1 [_ H2]]]; [discriminate Hd | tauto | tauto].
Qed.

(** Counterexample to C8 as stated: on [paired], where "c1" is bound as a
    controller, a second join of "c1" with the JSON array ['a'] as
    [sessionId] raises [TypeError] at [join_room] and leaves the old
    binding in place: the second join errors and does not overwrite. *)
Lemma C8_second_join_with_array_session :
  socket_map paired !! "c1" = Some (Binding (VStr "ab12cd34") (VStr "controller"))
  /\ handle_join "c1" join_array_desktop paired = Outcome (Raise TypeError) paired []
  /\ socket_map (post (handle_join "c1" join_array_desktop paired)) !! "c1"
     = Some (Binding (VStr "ab12cd34") (VStr "controller"))
  /\ ~ second_join_overwrites "c1" join_array_desktop paired.
Proof.
  assert (Hbound : socket_map paired !! "c1"
                   = Some (Binding (VStr "ab12cd34") (VStr "controller")))
    by reflexivity.
  assert (Hrun : handle_join "c1" join_array_desktop paired
                 = Outcome (Raise TypeError) paired []).
  { rewrite handle_join_eq. reflexivity. }
  split; [exact Hbound|]. split; [exact Hrun|].
  split; [rewrite Hrun; exact Hbound|].
  intros Hover. destruct Hover as (Hres & _); [rewrite Hbound; eauto|].
  rewrite Hrun in Hres. discriminate Hres.
Qed.

(** C8, amended: at all times the binding table has at most one entry per
    connection identifier; after any run from the empty tables a
    connection has a binding if and only if it has made a join that the
    transport admitted (its [sessionId] absent or a JSON scalar) and has
    not disconnected since; a join of that kind by a connection that is
    already bound returns normally and overwrites its binding with the
    new [{sessionId, role}], the table keeping the same number of
    entries; and a join whose [sessionId] is a JSON array or object
    raises [TypeError] and leaves the binding table as it was. *)
Theorem C8_one_binding_per_connection (rs : list request) (c : sid) :
  NoDup (map_to_list (socket_map (run rs init))).*1
  /\ (is_Some (socket_map (run rs init) !! c) <-> joined_and_connected c rs)
  /\ (forall st data,
        is_Some (socket_map st !! c) ->
        hashable (dict_get data "sessionId") = true ->
        res (handle_join c data st) = Ok tt
        /\ socket_map (post (handle_join c data st)) !! c
           = Some (Binding (dict_get data "sessionId") (dict_get data "role"))
        /\ size (socket_map (post (handle_join c data st))) = size (socket_map st)
        /\ dom (socket_map (post (handle_join c data st))) = dom (socket_map st))
  /\ (forall st data,
        hashable (dict_get data "sessionId") = false ->
        res (handle_join c data st) = Raise TypeError
        /\ socket_map (post (handle_join c data st)) = socket_map st).
Proof.
  split; [apply NoDup_fst_map_to_list|]. split; [|split].
  - rewrite bound_after_run. cbn [init socket_map]. rewrite lookup_empty. split.
    + intros [H | [[b Hb] _]]; [exact H | discriminate Hb].
    + intros H. left. exact H.
  - intros st data Hbound Hh. rewrite handle_join_eq. cbv zeta. rewrite Hh.
    cbn [res post socket_map].
    split; [reflexivity|].
    split; [apply lookup_insert_eq|].
    split; [apply map_size_insert_Some, Hbound | apply dom_insert_lookup_L, Hbound].
  - intros st data Hh. rewrite handle_join_eq. cbv zeta. rewrite Hh. split; reflexivity.
Qed.

(** C8, amended, along [game]: the desktop "d1" is bound and the
    controller "c1", which disconnected, is not; "d1" joining again for
    another session leaves one entry for "d1", the new one; "d1" joining
    with an array as [sessionId] changes nothing. *)
Lemma C8_one_binding_per_connection_witness :
  joined_and_connected "d1" game
  /\ is_Some (socket_map (run game init) !! "d1")
  /\ socket_map (run game init) !! "c1" = None
  /\ socket_map (post (handle_join "d1" rejoin_other (run game init))) !! "d1"
     = Some (Binding (VStr "ffff0000") (VStr "desktop"))
  /\ size (socket_map (post (handle_join "d1" rejoin_other (run game init))))
     = size (socket_map (run game init))
  /\ socket_map (post (handle_join "d1" join_array_desktop (run game init)))
     = socket_map (run game init).
Proof.
  destruct (C8_one_binding_per_connection game "d1") as (_ & Hiff & Hagain & Hrefused).
  assert (Hjoined : joined_and_connected "d1" game).
  { exists [CreateSession uuid_a lan], join_desktop, (tail (tail game)).
    split; [reflexivity|]. split; [reflexivity|]. intros Hin.
    repeat (apply elem_of_cons in Hin as [Hin | Hin]; [discriminate Hin|]).
    apply elem_of_nil in Hin. exact Hin. }
  pose proof (proj2 Hiff Hjoined) as Hbound.
  destruct (Hagain (run game init) rejoin_other Hbound eq_refl) as (_ & Hnew & Hsize & _).
  split; [exact Hjoined|]. split; [exact Hbound|].
  split; [reflexivity|]. split; [exact Hnew|]. split; [exact Hsize|].
  apply (Hrefused (run game init) join_array_desktop). reflexivity.
Defined.

(** * Further properties of the handlers and of runs *)

Lemma res_emit (me : sid) (ev : string) (body : payload) (room : value)
    (incl : bool) (st : state) :
  match res (emit me ev body room incl st) with
  | Ok _ => Ok None
  | Raise e => Raise e
  end = emit_result room.
Proof. rewrite emit_eq. unfold emit_result. destruct (emit_error room); reflexivity. Qed.

Lemma log_emit_indep (me : sid) (ev : string) (body : payload) (room : value)
    (incl : bool) (st st' : state) :
  log (emit me ev body room incl st) = log (emit me ev body room incl st').
Proof. rewrite !emit_eq. destruct (emit_error room); reflexivity. Qed.

Lemma step_log (r : request) (st : state) :
  log (step r st) =
  match r with
  | CreateSession _ _ => []
  | JoinSession me data => log (handle_join me data st)
  | Control me data => log (handle_control me data st)
  | StartGame me data => log (handle_start me data st)
  | EndGame me data => log (handle_end me data st)
  | ScoreUpdate me data => log (handle_score me data st)
  | RestartGame me data => log (handle_restart me data st)
  | Disconnect me => log (handle_disconnect me st)
  end.
Proof.
  destruct r; [|cbn [step]; apply log_bind_ret..].
  rewrite step_create. destruct (socket_works net); reflexivity.
Qed.

Lemma step_res (r : request) (st : state) :
  res (step r st) =
  match r with
  | CreateSession u net =>
      if socket_works net
      then Ok (Some (Response (short_id u) (ip_after_try net) 5173))
      else Raise OSError
  | JoinSession me data => if admitted data then Ok None else Raise TypeError
  | Control me data =>
      match data !! "direction" with
      | Some _ => emit_result (dict_get data "sessionId")
      | None => Raise (KeyError "direction")
      end
  | StartGame me data | EndGame me data | ScoreUpdate me data
  | RestartGame me data => emit_result (dict_get data "sessionId")
  | Disconnect me =>
      match socket_map st !! me with
      | Some info =>
          if eq_str (b_role info) "controller"
          then emit_result (b_sessionId info)
          else Ok None
      | None => Ok None
      end
  end.
Proof.
  destruct r as [u net|me data|me data|me data|me data|me data|me data|me];
    [rewrite step_create; destruct (socket_works net); reflexivity|..];
    cbn [step]; rewrite res_bind_ret.
  - rewrite handle_join_eq. cbv zeta. unfold admitted.
    destruct (hashable (dict_get data "sessionId")); reflexivity.
  - rewrite handle_control_eq. destruct (data !! "direction"); [apply res_emit | reflexivity].
  - apply res_emit.
  - apply res_emit.
  - apply res_emit.
  - apply res_emit.
  - rewrite handle_disconnect_eq. cbv zeta.
    destruct (socket_map st !! me) as [info|]; [|reflexivity].
    destruct (eq_str (b_role info) "controller"); [apply res_emit | reflexivity].
Qed.




(** X2: the result and the transport calls of every request other than a
    disconnect are the same on all tables: no handler but
    [handle_disconnect] reads [sessions] or [socket_map], so an event is
    relayed whether or not its sender has joined and whether or not the
    session exists; and a request that is neither a creation, a join nor
    a disconnect leaves both tables as they are. *)
Theorem X2_relay_ignores_tables (r : request) (st st' : state) :
  is_disconnect r = false ->
  res (step r st) = res (step r st')
  /\ log (step r st) = log (step r st')
  /\ (is_relay r = true -> (forall c, rebinds c r = false) -> post (step r st) = st).
Proof.
  intros Hr. split; [|split].
  - rewrite !step_res. destruct r; try reflexivity. discriminate Hr.
  - rewrite !step_log.
    destruct r as [u net|me data|me data|me data|me data|me data|me data|me];
      try reflexivity; try apply log_emit_indep.
    + rewrite !handle_join_eq. cbv zeta.
      destruct (hashable (dict_get data "sessionId")); reflexivity.
    + rewrite !handle_control_eq.
      destruct (data !! "direction"); [apply log_emit_indep | reflexivity].
    + discriminate Hr.
  - intros Hrelay Hreb. rewrite post_step.
    destruct r as [u net|me data|me data|me data|me data|me data|me data|me];
      try reflexivity.
    + discriminate Hrelay.
    + destruct (admitted data) eqn:Hadm; [|reflexivity].
      specialize (Hreb me). cbn in Hreb. rewrite Hadm, bool_decide_eq_true_2 in Hreb
        by reflexivity.
      discriminate Hreb.
    + discriminate Hr.
Qed.

(** X2 for a connection "x9" that never joined: its [control] is
    broadcast from the empty tables as from [paired], and changes
    neither. *)
Lemma X2_relay_ignores_tables_witness :
  socket_map paired !! "x9" = None
  /\ log (step (Control "x9" control_left) init)
     = [Emit "x9" "control" {[ "direction" := VStr "left" ]} (VStr "ab12cd34") false]
  /\ log (step (Control "x9" control_left) paired)
     = log (step (Control "x9" control_left) init)
  /\ post (step (Control "x9" control_left) paired) = paired.
Proof.
  destruct (X2_relay_ignores_tables (Control "x9" control_left) paired init eq_refl)
    as (_ & Hlog & Hpost).
  split; [reflexivity|]. split; [reflexivity|]. split; [exact Hlog|].
  apply Hpost; [reflexivity | intros c; reflexivity].
Defined.

(** X5: a request served for one connection leaves the binding of every
    other connection as it is; a session creation leaves all bindings as
    they are. *)
Theorem X5_other_bindings_untouched (r : request) (st : state) (c : sid) :
  connection_of r <> Some c ->
  socket_map (post (step r st)) !! c = socket_map st !! c.
Proof.
  intros Hc. rewrite step_socket_map.
  destruct r as [u net|me data|me data|me data|me data|me data|me data|me];
    try reflexivity; cbn [connection_of] in Hc.
  - destruct (admitted data); [|reflexivity]. apply lookup_insert_ne. congruence.
  - apply lookup_delete_ne. congruence.
Qed.

(** X5 on [paired]: the controller "c1" leaving, or joining again, does
    not touch the desktop's binding. *)
Lemma X5_other_bindings_untouched_witness :
  socket_map (post (step (Disconnect "c1") paired)) !! "d1"
  = Some (Binding (VStr "ab12cd34") (VStr "desktop"))
  /\ socket_map (post (step (JoinSession "c1" join_controller_other) paired)) !! "d1"
     = Some (Binding (VStr "ab12cd34") (VStr "desktop")).
Proof.
  split.
  - rewrite (X5_other_bindings_untouched (Disconnect "c1") paired "d1") by discriminate.
    reflexivity.
  - rewrite (X5_other_bindings_untouched (JoinSession "c1" join_controller_other) paired "d1")
      by discriminate.
    reflexivity.
Defined.

(** ** The binding of a connection is that of its last admitted join *)

Lemma last_join_nil (c : sid) (data : payload) : ~ last_join c [] data.
Proof. intros (before & after & Heq & _). destruct before; discriminate Heq. Qed.

Lemma last_join_cons (c : sid) (r : request) (rs : list request) (data : payload) :
  last_join c (r :: rs) data <->
  (r = JoinSession c data /\ admitted data = true
   /\ Forall (fun r => rebinds c r = false) rs)
  \/ (last_join c rs data).
Proof.
  split.
  - intros (before & after & Heq & Hadm & Hafter).
    destruct before as [|r' before]; cbn in Heq; injection Heq as -> ->.
    + left. auto.
    + right. exists before, after. auto.
  - intros [(-> & Hadm & Hrs) | (before & after & -> & Hadm & Hafter)].
    + exists [], rs. auto.
    + exists (r :: before), after. auto.
Qed.

Lemma last_join_in (c : sid) (rs : list request) (data : payload) :
  last_join c rs data -> JoinSession c data ∈ rs /\ admitted data = true.
Proof.
  intros (before & after & -> & Hadm & _). split; [|exact Hadm].
  apply elem_of_app. right. apply elem_of_cons. left. reflexivity.
Qed.

(** From any tables: after [rs], connection [c] is bound to [b] exactly
    when its last admitted join in [rs] wrote [b] and no disconnect of [c]
    follows, or [c] was bound to [b] before and [rs] has neither an
    admitted join nor a disconnect of [c]. *)
Lemma binding_after_run (c : sid) (rs : list request) (st : state) (b : binding) :
  socket_map (run rs st) !! c = Some b <->
  (exists data, last_join c rs data /\ b = binding_of data)
  \/ (socket_map st !! c = Some b /\ Forall (fun r => rebinds c r = false) rs).
Proof.
  revert st. induction rs as [|r rs IH]; intros st.
  - cbn [run]. split.
    + intros H. right. split; [exact H | constructor].
    + intros [(data & H & _) | [H _]]; [destruct (last_join_nil _ _ H) | exact H].
  - cbn [run]. rewrite IH, step_socket_map, Forall_cons.
    assert (Hlj : (exists data, last_join c (r :: rs) data /\ b = binding_of data) <->
                  (exists data, r = JoinSession c data
                                /\ admitted data = true
                                /\ Forall (fun r => rebinds c r = false) rs
                                /\ b = binding_of data)
                  \/ (exists data, last_join c rs data /\ b = binding_of data)).
    { split.
      - intros (data & H & Hb).
        apply last_join_cons in H as [(H1 & H2 & H3) | H]; eauto 8.
      - intros [(data & H1 & H2 & H3 & Hb) | (data & H & Hb)]; exists data;
          (split; [apply last_join_cons; eauto | exact Hb]). }
    rewrite Hlj. clear Hlj.
    destruct r as [u net|me data|me data|me data|me data|me data|me data|me];
      cbn [rebinds];
      try (split;
           [ intros [H | [H1 H2]]; [tauto | right; tauto]
           | intros [[(d & Hd & _) | H] | [H1 [_ H2]]]; [discriminate Hd | tauto | tauto] ]).
    + destruct (admitted data) eqn:Hadm; [destruct (decide (me = c)) as [->|Hne]|].
      * rewrite lookup_insert_eq, andb_true_r, bool_decide_eq_false. split.
        -- intros [H | [[= <-] H]]; [tauto|]. left. left. exists data. auto.
        -- intros [[(d & [= <-] & _ & H & ->) | H] | [_ [H _]]];
             [right | tauto | congruence].
           split; [reflexivity | exact H].
      * rewrite lookup_insert_ne, andb_true_r, bool_decide_eq_false by exact Hne. split.
        -- intros [H | [H1 H2]]; [tauto | right; tauto].
        -- intros [[(d & [= Hd _] & _) | H] | [H1 [_ H2]]]; [congruence | tauto | tauto].
      * rewrite andb_false_r. split.
        -- intros [H | [H1 H2]]; [tauto | right; tauto].
        -- intros [[(d & [= _ <-] & Hd & _) | H] | [H1 [_ H2]]];
             [congruence | tauto | tauto].
    + destruct (decide (me = c)) as [->|Hne].
      * rewrite lookup_delete_eq, bool_decide_eq_false. split.
        -- intros [H | [H _]]; [tauto | discriminate H].
        -- intros [[(d & Hd & _) | H] | [_ [H _]]]; [discriminate Hd | tauto | congruence].
      * rewrite lookup_delete_ne, bool_decide_eq_false by exact Hne. split.
        -- intros [H | [H1 H2]]; [tauto | right; tauto].
        -- intros [[(d & Hd & _) | H] | [H1 [_ H2]]]; [discriminate Hd | tauto | tauto].
Qed.

Lemma binding_after_run_init (c : sid) (rs : list request) (b : binding) :
  socket_map (run rs init) !! c = Some b <->
  exists data, last_join c rs data /\ b = binding_of data.
Proof.
  rewrite binding_after_run. cbn [init socket_map]. rewrite lookup_empty. split.
  - intros [H | [H _]]; [exact H | discriminate H].
  - intros H. left. exact H.
Qed.

(** X3: after any sequence of requests from the empty tables, a
    connection is bound to [{sessionId, role}] exactly when these are the
    [sessionId] and [role] of the payload of its last join that the
    transport admitted (one whose [sessionId] is absent or a JSON scalar)
    and it has not disconnected since: neither earlier joins of the
    connection nor later joins that raised at [join_room] show in the
    binding table. *)
Theorem X3_binding_is_last_join (rs : list request) (c : sid) (b : binding) :
  socket_map (run rs init) !! c = Some b <->
  exists data, last_join c rs data
               /\ b = Binding (dict_get data "sessionId") (dict_get data "role").
Proof.
  rewrite binding_after_run. cbn [init socket_map]. rewrite lookup_empty.
  fold (binding_of). split.
  - intros [H | [H _]]; [exact H | discriminate H].
  - intros H. left. exact H.
Qed.

(** X3 along [hops], where "c1" joined session "ab12cd34", then
    "ffff0000", and is bound to the second; and along [refused_hop], where
    the second join of "c1" has an array as [sessionId], and "c1" stays
    bound to the first. *)
Lemma X3_binding_is_last_join_witness :
  last_join "c1" hops join_controller_other
  /\ socket_map (run hops init) !! "c1"
     = Some (Binding (VStr "ffff0000") (VStr "controller"))
  /\ socket_map (run refused_hop init) !! "c1"
     = Some (Binding (VStr "ab12cd34") (VStr "controller")).
Proof.
  assert (Hlast : last_join "c1" hops join_controller_other).
  { exists [JoinSession "c1" join_controller_ana; Control "c1" only_session_id],
      [JoinSession "d1" join_desktop].
    split; [reflexivity|]. split; [reflexivity | repeat constructor]. }
  split; [exact Hlast|]. split.
  - apply (proj2 (X3_binding_is_last_join hops "c1" _)).
    exists join_controller_other. split; [exact Hlast | reflexivity].
  - apply (proj2 (X3_binding_is_last_join refused_hop "c1" _)).
    exists join_controller_ana. split; [|reflexivity].
    exists [], [JoinSession "c1" join_array_desktop].
    split; [reflexivity|]. split; [reflexivity | repeat constructor].
Defined.

Lemma join_in_transcript (c : sid) (data : payload) (rs : list request) (st : state) :
  JoinSession c data ∈ rs -> admitted data = true ->
  JoinRoom c (dict_get data "sessionId") ∈ transcript rs st.
Proof.
  intros Hin Hadm. revert st. induction rs as [|r rs IH]; intros st.
  - apply elem_of_nil in Hin. contradiction.
  - cbn [transcript]. apply elem_of_app. apply elem_of_cons in Hin as [<- | Hin].
    + left. rewrite step_log, handle_join_eq. cbv zeta. unfold admitted in Hadm.
      rewrite Hadm. cbn [log]. apply elem_of_cons. left. reflexivity.
    + right. apply IH, Hin.
Qed.

Lemma farewell_log (c : sid) (b : binding) (st : state) :
  hashable (b_sessionId b) = true ->
  log (if eq_str (b_role b) "controller"
       then emit c "controller_disconnected" ∅ (b_sessionId b) true st
       else Outcome (Ok tt) st [])
  = farewell c b.
Proof.
  intros Hh. unfold farewell. destruct (eq_str (b_role b) "controller"); [|reflexivity].
  rewrite emit_plain by exact Hh. reflexivity.
Qed.

(** X4: after any sequence of requests from the empty tables, what a
    disconnect of [c] broadcasts is decided by the last admitted join of
    [c] alone: when [c] is bound by a join with payload [data], the log is
    one [controller_disconnected{}] to the room [data.get('sessionId')] if
    [data.get('role')] is 'controller' and nothing otherwise, so a room
    that [c] joined earlier is not told; and when [c] is not bound
    nothing is broadcast.  In every case the room that is told is one
    that [c] entered with [join_room] earlier in the run. *)
Theorem X4_disconnect_tells_last_room (rs : list request) (c : sid) :
  (forall data, last_join c rs data ->
     log (handle_disconnect c (run rs init)) = farewell c (binding_of data))
  /\ ((forall data, ~ last_join c rs data) ->
        log (handle_disconnect c (run rs init)) = [])
  /\ (forall ev body room incl,
        Emit c ev body room incl ∈ log (handle_disconnect c (run rs init)) ->
        ev = "controller_disconnected"
        /\ JoinRoom c room ∈ transcript rs init).
Proof.
  split; [|split].
  - intros data Hlast. rewrite handle_disconnect_eq. cbv zeta.
    assert (Hb : socket_map (run rs init) !! c = Some (binding_of data))
      by (apply binding_after_run_init; eauto).
    rewrite Hb. apply farewell_log. apply (last_join_in _ _ _ Hlast).
  - intros Hnone. rewrite handle_disconnect_eq. cbv zeta.
    destruct (socket_map (run rs init) !! c) as [b|] eqn:Hb; [|reflexivity].
    apply binding_after_run_init in Hb as (data & Hlast & _).
    destruct (Hnone _ Hlast).
  - intros ev body room incl. rewrite handle_disconnect_eq. cbv zeta.
    destruct (socket_map (run rs init) !! c) as [b|] eqn:Hb;
      [|intros Hin; apply elem_of_nil in Hin; contradiction].
    apply binding_after_run_init in Hb as (data & Hlast & ->).
    destruct (last_join_in _ _ _ Hlast) as [Hin' Hadm].
    rewrite farewell_log by exact Hadm. unfold farewell.
    destruct (eq_str (b_role (binding_of data)) "controller");
      [|intros Hin; apply elem_of_nil in Hin; contradiction].
    intros Hin. apply list_elem_of_singleton in Hin. injection Hin as -> -> -> ->.
    split; [reflexivity|]. apply join_in_transcript; assumption.
Qed.

(** X4 along [hops]: the departure of "c1" is announced to "ffff0000"
    only, although "c1" also entered the room "ab12cd34"; and along
    [refused_hop] it is announced to "ab12cd34", the join that was
    refused leaving no trace. *)
Lemma X4_disconnect_tells_last_room_witness :
  JoinRoom "c1" (VStr "ab12cd34") ∈ transcript hops init
  /\ log (handle_disconnect "c1" (run hops init))
     = [Emit "c1" "controller_disconnected" ∅ (VStr "ffff0000") true]
  /\ log (handle_disconnect "c1" (run refused_hop init))
     = [Emit "c1" "controller_disconnected" ∅ (VStr "ab12cd34") true].
Proof.
  destruct (X4_disconnect_tells_last_room hops "c1") as (Hlast & _).
  destruct (X4_disconnect_tells_last_room refused_hop "c1") as (Hlast' & _).
  split; [|split].
  - apply (join_in_transcript "c1" join_controller_ana hops init); [|reflexivity].
    apply elem_of_cons. left. reflexivity.
  - apply (Hlast join_controller_other).
    exists [JoinSession "c1" join_controller_ana; Control "c1" only_session_id],
      [JoinSession "d1" join_desktop].
    split; [reflexivity|]. split; [reflexivity | repeat constructor].
  - apply (Hlast' join_controller_ana).
    exists [], [JoinSession "c1" join_array_desktop].
    split; [reflexivity|]. split; [reflexivity | repeat constructor].
Defined.

(** X9: a join whose [sessionId] is absent or a JSON scalar, followed by a
    disconnect of the same connection: the binding is gone whatever it
    was before, the disconnect broadcasts exactly what the role of that
    join calls for, and when the connection was not bound before the join
    both tables are back to what they were.  After a join that
    [join_room] refused, the tables are as before the join, so the
    disconnect acts on the binding that was there. *)
Theorem X9_join_then_disconnect (me : sid) (data : payload) (st : state) :
  (hashable (dict_get data "sessionId") = true ->
   socket_map (post (handle_disconnect me (post (handle_join me data st))))
   = delete me (socket_map st)
   /\ sessions (post (handle_disconnect me (post (handle_join me data st))))
      = sessions st
   /\ log (handle_disconnect me (post (handle_join me data st)))
      = farewell me (binding_of data)
   /\ (socket_map st !! me = None ->
         post (handle_disconnect me (post (handle_join me data st))) = st))
  /\ (hashable (dict_get data "sessionId") = false ->
        handle_disconnect me (post (handle_join me data st))
        = handle_disconnect me st).
Proof.
  split.
  - intros Hh. rewrite post_handle_disconnect, handle_disconnect_eq, post_handle_join.
    unfold admitted. rewrite Hh. cbv zeta. cbn [socket_map sessions].
    rewrite lookup_insert_eq, delete_insert_eq.
    split; [reflexivity|]. split; [reflexivity|].
    split; [apply farewell_log; exact Hh|].
    intros Hnone. rewrite delete_id by exact Hnone. destruct st; reflexivity.
  - intros Hh. rewrite post_handle_join. unfold admitted. rewrite Hh. reflexivity.
Qed.

(** X9 on the empty tables, where "c1" is not bound, and on [paired] with
    a join that is refused. *)
Lemma X9_join_then_disconnect_witness :
  socket_map init !! "c1" = None
  /\ post (handle_disconnect "c1" (post (handle_join "c1" join_controller_ana init)))
     = init
  /\ log (handle_disconnect "c1" (post (handle_join "c1" join_controller_ana init)))
     = [Emit "c1" "controller_disconnected" ∅ (VStr "ab12cd34") true]
  /\ log (handle_disconnect "c1" (post (handle_join "c1" join_array_desktop paired)))
     = [Emit "c1" "controller_disconnected" ∅ (VStr "ab12cd34") true].
Proof.
  destruct (X9_join_then_disconnect "c1" join_controller_ana init) as (Hplain & _).
  destruct (X9_join_then_disconnect "c1" join_array_desktop paired) as (_ & Hrefused).
  destruct (Hplain eq_refl) as (_ & _ & Hlog & Hback).
  split; [reflexivity|]. split; [apply Hback; reflexivity|]. split; [exact Hlog|].
  rewrite (Hrefused eq_refl). reflexivity.
Defined.

(** ** The session table along a run *)

Lemma session_keys_run (rs : list request) (st : state) (k : string) :
  is_Some (sessions (run rs st) !! k) <->
  k ∈ created_ids rs \/ is_Some (sessions st !! k).
Proof.
  revert st. induction rs as [|r rs IH]; intros st.
  - cbn [run created_ids]. rewrite elem_of_nil. tauto.
  - cbn [run]. rewrite IH, step_sessions.
    destruct r as [u net|me data|me data|me data|me data|me data|me data|me];
      cbn [created_ids]; try tauto.
    destruct (socket_works net); [|tauto].
    rewrite elem_of_cons, lookup_insert. case_decide as Hk.
    + subst k. split; [intros _; left; left; reflexivity | intros _; right; eauto].
    + split; [tauto|]. intros [[H | H] | H]; [congruence | tauto | tauto].
Qed.

Lemma session_count_run (rs : list request) (st : state) :
  (size (sessions (run rs st)) <= length (created_ids rs) + size (sessions st))%nat.
Proof.
  revert st. induction rs as [|r rs IH]; intros st; [cbn; lia|].
  cbn [run]. specialize (IH (post (step r st))). rewrite step_sessions in IH.
  destruct r as [u net|me data|me data|me data|me data|me data|me data|me];
    cbn [created_ids]; try exact IH.
  destruct (socket_works net); [|exact IH].
  rewrite map_size_insert in IH. cbn [length].
  destruct (sessions st !! short_id u); cbv beta iota in IH; unfold id in IH; lia.
Qed.

(** X6: after any sequence of requests from the empty tables, the keys of
    the session table are exactly the identifiers that the creations of
    the sequence returned (no relay request adds a key and nothing removes
    one), and the table has at most as many records as there were
    creations. *)
Theorem X6_session_keys (rs : list request) (k : string) :
  (is_Some (sessions (run rs init) !! k) <-> k ∈ created_ids rs)
  /\ (size (sessions (run rs init)) <= length (created_ids rs))%nat.
Proof.
  split.
  - rewrite session_keys_run. cbn [init sessions]. rewrite lookup_empty. split.
    + intros [H | [s Hs]]; [exact H | discriminate Hs].
    + intros H. left. exact H.
  - pose proof (session_count_run rs init) as H. cbn [init sessions] in H.
    rewrite map_size_empty in H. lia.
Qed.

(** X6 along [game], with a second creation that collides and a third
    that has no socket: two identifiers returned, one key. *)
Lemma X6_session_keys_witness :
  created_ids (game ++ [CreateSession uuid_b no_network;
                        CreateSession "ffff0000-0000-4000-8000-000000000000" no_descriptor])
  = ["ab12cd34"; "ab12cd34"]
  /\ is_Some (sessions (run (game ++ [CreateSession uuid_b no_network]) init) !! "ab12cd34")
  /\ sessions (run (game ++ [CreateSession uuid_b no_network]) init) !! "ffff0000" = None.
Proof.
  split; [reflexivity|]. split.
  - apply (proj1 (X6_session_keys (game ++ [CreateSession uuid_b no_network]) "ab12cd34")).
    apply elem_of_cons. left. reflexivity.
  - destruct (sessions (run (game ++ [CreateSession uuid_b no_network]) init) !! "ffff0000")
      as [s|] eqn:Hs; [|reflexivity].
    assert (Hin : "ffff0000" ∈ created_ids (game ++ [CreateSession uuid_b no_network])).
    { apply (proj1 (X6_session_keys _ "ffff0000")). rewrite Hs. eauto. }
    repeat (apply elem_of_cons in Hin as [Hin | Hin]; [discriminate Hin|]).
    apply elem_of_nil in Hin. contradiction.
Defined.

(** ** The identifier cut from the UUID *)

Lemma substring_0_length (n : nat) (s : string) :
  String.length (String.substring 0 n s) = Nat.min n (String.length s).
Proof.
  revert s. induction n as [|n IH]; intros [|a s]; cbn; try reflexivity.
  rewrite IH. reflexivity.
Qed.

Lemma substring_0_prefix (n : nat) (s : string) :
  exists rest, s = String.append (String.substring 0 n s) rest.
Proof.
  revert s. induction n as [|n IH]; intros [|a s]; cbn.
  - exists EmptyString. reflexivity.
  - exists (String a s). reflexivity.
  - exists EmptyString. reflexivity.
  - destruct (IH s) as [rest Hrest]. exists rest.
    change (String a s = String a (String.append (String.substring 0 n s) rest)).
    f_equal. exact Hrest.
Qed.

(** X7: the identifier [str(uuid4)[:8]] is a prefix of the UUID text, of
    [min(8, length)] characters: exactly 8 whenever the text has at least
    8 characters, as the 36 characters of a UUID do, and never more. *)
Theorem X7_short_id_is_prefix (uuid4 : string) :
  String.length (short_id uuid4) = Nat.min 8 (String.length uuid4)
  /\ (exists rest, uuid4 = String.append (short_id uuid4) rest)
  /\ ((8 <= String.length uuid4)%nat -> String.length (short_id uuid4) = 8%nat).
Proof.
  unfold short_id. split; [apply substring_0_length|].
  split; [apply substring_0_prefix|].
  intros Hlen. rewrite substring_0_length. lia.
Qed.

Lemma X7_short_id_is_prefix_witness :
  (8 <= String.length uuid_a)%nat
  /\ String.length (short_id uuid_a) = 8%nat
  /\ short_id "ab12" = "ab12".
Proof.
  destruct (X7_short_id_is_prefix uuid_a) as (_ & _ & Hlen).
  assert (Hlong : (8 <= String.length uuid_a)%nat) by (cbn; lia).
  split; [exact Hlong|]. split; [exact (Hlen Hlong) | reflexivity].
Defined.

(** ** What the server sends *)

(** The calls of one request, each with what the source passes. *)
Lemma step_calls (r : request) (st : state) (c : call) :
  c ∈ log (step r st) ->
  match c with
  | Emit sender ev body _ _ =>
      ev ∈ server_events /\ connection_of r = Some sender
      /\ forall k, is_Some (body !! k) <-> k ∈ event_fields ev
  | JoinRoom sender room =>
      exists data, r = JoinSession sender data /\ room = dict_get data "sessionId"
  end.
Proof.
  assert (Hev : forall ev, In ev server_events -> ev ∈ server_events)
    by (intros; apply list_elem_of_In; assumption).
  assert (H0 : forall k : string, is_Some ((∅ : payload) !! k) <-> k ∈ @nil string).
  { intros k. rewrite lookup_empty, elem_of_nil.
    split; [intros [v Hv]; discriminate Hv | tauto]. }
  assert (H1 : forall (f k : string) (v : value),
             is_Some (({[ f := v ]} : payload) !! k) <-> k ∈ [f]).
  { intros f k v. rewrite list_elem_of_singleton, lookup_singleton. case_decide as Hk.
    - subst k. split; eauto.
    - split; [intros [w Hw]; discriminate Hw | congruence]. }
  assert (H2 : forall (f g k : string) (v w : value),
             is_Some ((<[ f := v ]> ({[ g := w ]} : payload)) !! k) <-> k ∈ [f; g]).
  { intros f g k v w. rewrite elem_of_cons, lookup_insert. case_decide as Hk.
    - subst k. split; eauto.
    - rewrite H1. split; [tauto|]. intros [H | H]; [congruence | exact H]. }
  rewrite step_log.
  destruct r as [u net|me data|me data|me data|me data|me data|me data|me];
    rewrite ?handle_control_eq, ?handle_start_eq, ?handle_end_eq,
      ?handle_score_eq, ?handle_restart_eq.
  - intros Hin. apply elem_of_nil in Hin. contradiction.
  - rewrite handle_join_eq. cbv zeta.
    destruct (hashable (dict_get data "sessionId")); cbn [log];
      [|intros Hin; apply elem_of_nil in Hin; contradiction].
    intros Hin. apply elem_of_cons in Hin as [-> | Hin]; [eauto|].
    destruct (eq_str (dict_get data "role") "controller");
      [|destruct (eq_str (dict_get data "role") "desktop")];
      try (apply elem_of_nil in Hin; contradiction);
      apply list_elem_of_singleton in Hin as ->;
      (split; [apply Hev; cbn; tauto | split; [reflexivity | intros k; apply H1]]).
  - destruct (data !! "direction"); [|intros Hin; apply elem_of_nil in Hin; contradiction].
    intros Hin. apply log_emit_elem in Hin as ->.
    split; [apply Hev; cbn; tauto | split; [reflexivity | intros k; apply H1]].
  - intros Hin. apply log_emit_elem in Hin as ->.
    split; [apply Hev; cbn; tauto | split; [reflexivity | intros k; apply H0]].
  - intros Hin. apply log_emit_elem in Hin as ->.
    split; [apply Hev; cbn; tauto | split; [reflexivity | intros k; apply H2]].
  - intros Hin. apply log_emit_elem in Hin as ->.
    split; [apply Hev; cbn; tauto | split; [reflexivity | intros k; apply H2]].
  - intros Hin. apply log_emit_elem in Hin as ->.
    split; [apply Hev; cbn; tauto | split; [reflexivity | intros k; apply H0]].
  - rewrite handle_disconnect_eq. cbv zeta.
    destruct (socket_map st !! me) as [info|];
      [destruct (eq_str (b_role info) "controller")|];
      intros Hin; try (apply elem_of_nil in Hin; contradiction).
    apply log_emit_elem in Hin as ->.
    split; [apply Hev; cbn; tauto | split; [reflexivity | intros k; apply H0]].
Qed.

Lemma step_one_emit (r : request) (st : state) :
  (length (emits (log (step r st))) <= 1)%nat.
Proof.
  rewrite step_log.
  destruct r as [u net|me data|me data|me data|me data|me data|me data|me];
    rewrite ?handle_control_eq, ?handle_start_eq, ?handle_end_eq,
      ?handle_score_eq, ?handle_restart_eq; try apply log_emit_length.
  - cbn. lia.
  - rewrite handle_join_eq. cbv zeta.
    destruct (hashable (dict_get data "sessionId")); [|cbn; lia].
    destruct (eq_str (dict_get data "role") "controller");
      [|destruct (eq_str (dict_get data "role") "desktop")]; cbn; lia.
  - destruct (data !! "direction"); [apply log_emit_length | cbn; lia].
  - rewrite handle_disconnect_eq. cbv zeta.
    destruct (socket_map st !! me) as [info|];
      [destruct (eq_str (b_role info) "controller")|];
      try apply log_emit_length; cbn; lia.
Qed.

(** X8: in every run, from any tables, each broadcast carries one of the
    eight event names of the protocol and is made on behalf of the
    connection of one of the requests served; each [join_room] is for the
    [sessionId] of a join request of that connection; one request causes
    at most one broadcast; and a session creation makes no transport call
    at all. *)
Theorem X8_transcript_vocabulary (rs : list request) (st : state) :
  (forall c, c ∈ transcript rs st ->
     match c with
     | Emit sender ev _ _ _ =>
         ev ∈ server_events /\ exists r, r ∈ rs /\ connection_of r = Some sender
     | JoinRoom sender room =>
         exists data, JoinSession sender data ∈ rs /\ room = dict_get data "sessionId"
     end)
  /\ (length (emits (transcript rs st)) <= length rs)%nat
  /\ (forall uuid4 net st', log (step (CreateSession uuid4 net) st') = []).
Proof.
  split; [|split].
  - revert st. induction rs as [|r rs IH]; intros st c Hin.
    + apply elem_of_nil in Hin. contradiction.
    + cbn [transcript] in Hin. apply elem_of_app in Hin as [Hin | Hin].
      * apply step_calls in Hin. destruct c as [sender room|sender ev body room incl].
        -- destruct Hin as (data & -> & ->). exists data.
           split; [apply elem_of_cons; left; reflexivity | reflexivity].
        -- destruct Hin as (Hev & Hconn & _). split; [exact Hev|]. exists r.
           split; [apply elem_of_cons; left; reflexivity | exact Hconn].
      * apply IH in Hin. destruct c as [sender room|sender ev body room incl].
        -- destruct Hin as (data & Hd & ->). exists data.
           split; [apply elem_of_cons; right; exact Hd | reflexivity].
        -- destruct Hin as [Hev (r' & Hr' & Hconn)]. split; [exact Hev|]. exists r'.
           split; [apply elem_of_cons; right; exact Hr' | exact Hconn].
  - revert st. induction rs as [|r rs IH]; intros st; [cbn; lia|].
    cbn [transcript length]. unfold emits in *. rewrite List.filter_app, length_app.
    pose proof (step_one_emit r st) as H1. unfold emits in H1.
    specialize (IH (post (step r st))). lia.
  - intros uuid4 net st'. rewrite step_log. reflexivity.
Qed.

(** X10: in every run, from any tables, the body of each broadcast has
    exactly the fields that the source writes for its event name
    ([name]; [sessionId]; [direction]; [score] and [coins]; or none),
    whatever other fields the inbound payload carried: nothing else of an
    inbound payload is passed on. *)
Theorem X10_broadcast_fields (rs : list request) (st : state)
    (sender : sid) (ev : string) (body : payload) (room : value) (incl : bool) :
  Emit sender ev body room incl ∈ transcript rs st ->
  forall k, is_Some (body !! k) <-> k ∈ event_fields ev.
Proof.
  revert st. induction rs as [|r rs IH]; intros st Hin k.
  - apply elem_of_nil in Hin. contradiction.
  - cbn [transcript] in Hin. apply elem_of_app in Hin as [Hin | Hin].
    + apply step_calls in Hin. destruct Hin as (_ & _ & Hfields). apply Hfields.
    + exact (IH _ Hin k).
Qed.

(** X10 for a [control] that also carries [sessionId]: only [direction]
    is in the broadcast. *)
Lemma X10_broadcast_fields_witness :
  is_Some (control_left !! "sessionId")
  /\ forall body, Emit "c1" "control" body (VStr "ab12cd34") false
                    ∈ transcript [Control "c1" control_left] init ->
                  body !! "sessionId" = None /\ is_Some (body !! "direction").
Proof.
  split; [eexists; reflexivity|]. intros body Hin.
  pose proof (X10_broadcast_fields _ _ _ _ _ _ _ Hin) as Hfields. split.
  - destruct (body !! "sessionId") as [v|] eqn:Hv; [|reflexivity].
    assert (Hk : "sessionId" ∈ event_fields "control")
      by (apply Hfields; rewrite Hv; eauto).
    apply list_elem_of_singleton in Hk. discriminate Hk.
  - apply Hfields. apply list_elem_of_singleton. reflexivity.
Defined.

(** X11: on tables that the server can reach, a creation whose identifier
    is already a key of the session table leaves the table exactly as it
    was, while returning that identifier once more when its socket works:
    the table keeps no sign that two creations were given the same
    session. *)
Theorem X11_collision_is_silent (uuid4 : string) (net : net_env) (st : state) :
  reachable st ->
  is_Some (sessions st !! short_id uuid4) ->
  post (create_session uuid4 net st) = st
  /\ (socket_works net = true ->
        res (create_session uuid4 net st)
        = Ok (Response (short_id uuid4) (ip_after_try net) 5173)).
Proof.
  intros Hreach [s Hs]. rewrite create_session_eq.
  destruct (socket_works net); [|split; [reflexivity | discriminate]].
  split; [|reflexivity].
  pose proof (all_waiting_reachable _ Hreach _ _ Hs) as ->.
  cbn [post]. rewrite insert_id by exact Hs. destruct st; reflexivity.
Qed.

Lemma X11_collision_is_silent_witness :
  reachable (run [CreateSession uuid_a lan] init)
  /\ is_Some (sessions (run [CreateSession uuid_a lan] init) !! short_id uuid_b)
  /\ post (create_session uuid_b no_network (run [CreateSession uuid_a lan] init))
     = run [CreateSession uuid_a lan] init
  /\ res (create_session uuid_b no_network (run [CreateSession uuid_a lan] init))
     = Ok (Response "ab12cd34" "127.0.0.1" 5173).
Proof.
  assert (Hreach : reachable (run [CreateSession uuid_a lan] init))
    by (exists [CreateSession uuid_a lan]; reflexivity).
  assert (Hkey : is_Some (sessions (run [CreateSession uuid_a lan] init) !! short_id uuid_b)).
  { change (short_id uuid_b) with "ab12cd34". cbn. rewrite lookup_insert_eq. eauto. }
  destruct (X11_collision_is_silent uuid_b no_network _ Hreach Hkey) as [Hpost Hres].
  split; [exact Hreach|]. split; [exact Hkey|]. split; [exact Hpost|].
  exact (Hres eq_refl).
Defined.
